(** * Loan ledger engine of bank_system (loans/models.py, loans/serializers.py,
      loans/views.py): a shallow embedding and its verified properties.

    Conventions of the embedding.

    - A [DecimalField(decimal_places=2)] value is the integer number of its
      hundredths: an amount of money is a number of cents, an interest rate a
      number of hundredths of a percent.  The digit limit of a model's
      decimal column ([max_digits]) is checked where [full_clean] checks it;
      the format limits of the serializers' fields, the 28 significant digits
      of the decimal context and the range of an [IntegerField], which depends
      on the database backend, are not modelled.
    - A nullable column ([null=True]) is an [option].
    - An exception is a value of [Exception]; code that may raise lives in the
      [result] monad.
    - The database is a record [DB]; a view maps a request and a database to a
      response and the next database.
    - A model's primary key has [default=uuid.uuid4]: [Model.__init__] fills
      it in, so an instance built by [objects.create] holds a primary key
      before its [save] runs.  The value drawn is an argument of the view.
    - Of [full_clean] the embedding has the digit limits of the decimal fields
      and the model's [clean]; the uniqueness checks and the timestamps
      ([auto_now_add]) are outside the embedding. *)

From Stdlib Require Import ZArith Lia.
From stdpp Require Import base option list gmap strings.

Local Open Scope Z_scope.

(** ** decimal: quantize(Decimal('0.01'), rounding=ROUND_HALF_UP) *)

(** [quantize_half_up num den] is the fraction [num / den] of a cent
    ([den > 0] at every call site) rounded to a whole number of cents, ties
    going away from zero as ROUND_HALF_UP does. *)
Definition quantize_half_up (num den : Z) : Z :=
  Z.sgn num * ((2 * Z.abs num + den) / (2 * den)).

(** Truth value of a number in a condition ([if x and ...]): zero is false. *)
Definition truthy (x : Z) : bool := negb (x =? 0).

(** ** Exceptions *)

(** The messages of the [ValidationError]s the source raises. *)
Inductive ErrorMsg : Type :=
| PrincipalNotPositive   (* "Principal amount must be positive" *)
| PeriodNotPositive      (* "Loan period must be positive" *)
| RateNegative           (* "Interest rate cannot be negative" *)
| CustomerDoesNotExist   (* "Customer does not exist." *)
| InvalidAmount          (* amount field: min_value=Decimal('0.01') *)
| LoanNotFound           (* "Loan not found" *)
| LoanInactive           (* "Cannot make payment on inactive loan" *)
| NoRemainingBalance     (* "Loan has no remaining balance" *)
| AmountExceedsBalance (payment_amount remaining : Z)
    (* "Payment amount (..) exceeds remaining balance (..)" *)
| AllInstallmentsPaid    (* "All EMIs have already been paid" *)
| EmiAmountMismatch (emi : option Z)
    (* "EMI payment must be exactly the monthly EMI amount (..)" *)
| EnsureNoMoreDigits
    (* "Ensure that there are no more than %(max)s digits in total." *).

Inductive Exception : Type :=
| ValidationError (msg : ErrorMsg)
| TypeError        (* ordering or [min] against [None] *)
| IntegrityError   (* NULL written to a NOT NULL column *)
| DoesNotExist     (* [Loan.DoesNotExist], [Customer.DoesNotExist] *)
| ZeroDivisionError (* a [Decimal] divided by zero *).

Inductive result (A : Type) : Type :=
| Ok (a : A)
| Raise (e : Exception).
Arguments Ok {A} a.
Arguments Raise {A} e.

#[global] Instance result_ret : MRet result := fun A a => Ok a.
#[global] Instance result_bind : MBind result := fun A B f m =>
  match m with
  | Ok a => f a
  | Raise e => Raise e
  end.

(** Reading a nullable value where the source orders or adds it. *)
Definition not_none {A : Type} (o : option A) : result A :=
  match o with
  | Some a => Ok a
  | None => Raise TypeError
  end.

(** [(x / y).quantize(..)] and [int(x // y)] on decimals: both raise when the
    divisor is zero; [//] truncates towards zero. *)
Definition decimal_div_quantize (num den : Z) : result Z :=
  if den =? 0 then Raise ZeroDivisionError else Ok (quantize_half_up num den).

Definition decimal_floordiv (x y : Z) : result Z :=
  if y =? 0 then Raise ZeroDivisionError else Ok (x ÷ y).

(** ** models.py *)

Abbreviation UUID := N (only parsing).

Inductive LoanStatus : Type := ACTIVE | COMPLETED | DEFAULTED.

Inductive PaymentType : Type := EMI | LUMP_SUM.

#[global] Instance LoanStatus_eq_dec : EqDecision LoanStatus.
Proof. solve_decision. Defined.

#[global] Instance PaymentType_eq_dec : EqDecision PaymentType.
Proof. solve_decision. Defined.

Record Loan : Type := mkLoan {
  loan_id : UUID;
  customer : string;                 (* customer_id of the owner *)
  principal_amount : Z;              (* P, cents *)
  loan_period_years : Z;             (* N *)
  interest_rate : Z;                 (* R, hundredths of a percent *)
  total_interest : option Z;         (* I *)
  total_amount : option Z;           (* A *)
  monthly_emi : option Z;
  amount_paid : Z;
  remaining_balance : option Z;
  total_emis : option Z;
  emis_paid : Z;
  loan_status : LoanStatus
}.

Record Payment : Type := mkPayment {
  payment_id : option UUID;          (* pk *)
  loan : Loan;                       (* the related object held in memory *)
  payment_type : PaymentType;
  amount : Z;
  balance_after_payment : Z
}.

Record DB : Type := mkDB {
  customers : gset string;
  loans : gmap UUID Loan;
  payments : list Payment
}.

(** Attribute assignments. *)
Definition set_amount_paid (v : Z) (l : Loan) : Loan :=
  mkLoan (loan_id l) (customer l) (principal_amount l) (loan_period_years l)
    (interest_rate l) (total_interest l) (total_amount l) (monthly_emi l)
    v (remaining_balance l) (total_emis l) (emis_paid l) (loan_status l).

Definition set_remaining_balance (v : option Z) (l : Loan) : Loan :=
  mkLoan (loan_id l) (customer l) (principal_amount l) (loan_period_years l)
    (interest_rate l) (total_interest l) (total_amount l) (monthly_emi l)
    (amount_paid l) v (total_emis l) (emis_paid l) (loan_status l).

Definition set_emis_paid (v : Z) (l : Loan) : Loan :=
  mkLoan (loan_id l) (customer l) (principal_amount l) (loan_period_years l)
    (interest_rate l) (total_interest l) (total_amount l) (monthly_emi l)
    (amount_paid l) (remaining_balance l) (total_emis l) v (loan_status l).

Definition set_loan_status (v : LoanStatus) (l : Loan) : Loan :=
  mkLoan (loan_id l) (customer l) (principal_amount l) (loan_period_years l)
    (interest_rate l) (total_interest l) (total_amount l) (monthly_emi l)
    (amount_paid l) (remaining_balance l) (total_emis l) (emis_paid l) v.

(** [super().save()] of a loan: the row of its primary key is written. *)
Definition db_save_loan (l : Loan) (db : DB) : DB :=
  mkDB (customers db) (<[loan_id l := l]> (loans db)) (payments db).

(** [super().save()] of a payment. *)
Definition db_save_payment (p : Payment) (db : DB) : DB :=
  mkDB (customers db) (loans db) (payments db ++ [p]).

(** [Loan.clean] *)
Definition Loan_clean (self : Loan) : result unit :=
  if truthy (principal_amount self) && (principal_amount self <=? 0)
  then Raise (ValidationError PrincipalNotPositive)
  else if truthy (loan_period_years self) && (loan_period_years self <=? 0)
  then Raise (ValidationError PeriodNotPositive)
  else if interest_rate self <? 0
  then Raise (ValidationError RateNegative)
  else Ok tt.

(** [DecimalValidator(max_digits, 2)] on a number of hundredths: at most
    [max_digits] digits in all, two of them decimals. *)
Definition decimal_fits (max_digits : Z) (v : Z) : bool :=
  Z.abs v <? 10 ^ max_digits.

(** The same on a column with [null=True, blank=True]: [clean_fields] skips
    an empty value. *)
Definition nullable_fits (max_digits : Z) (o : option Z) : bool :=
  match o with
  | Some v => decimal_fits max_digits v
  | None => true
  end.

(** [Model.clean_fields] on a loan: the validators of its decimal fields,
    [max_digits=12] for the amounts and [max_digits=5] for the rate.  Its
    other checks cannot fail on a loan the views build: the customer was
    found, and the status is one of the choices. *)
Definition Loan_clean_fields (self : Loan) : result unit :=
  if decimal_fits 12 (principal_amount self)
     && decimal_fits 5 (interest_rate self)
     && nullable_fits 12 (total_interest self)
     && nullable_fits 12 (total_amount self)
     && nullable_fits 12 (monthly_emi self)
     && decimal_fits 12 (amount_paid self)
     && nullable_fits 12 (remaining_balance self)
  then Ok tt
  else Raise (ValidationError EnsureNoMoreDigits).

(** [self.full_clean()]: [clean_fields], then the model's own [clean].  Django
    runs both and raises one [ValidationError] with the messages of both; the
    embedding names the first. *)
Definition Loan_full_clean (self : Loan) : result unit :=
  _ ← Loan_clean_fields self; Loan_clean self.

(** The first block of [Loan.save]: "Calculate loan values if not already
    calculated". *)
Definition calculate_loan_values (self : Loan) : result Loan :=
  match total_amount self, total_interest self with
  | Some _, Some _ => Ok self
  | _, _ =>
    let principal := principal_amount self in
    let period := loan_period_years self in
    let rate := interest_rate self in
    let total_interest' := quantize_half_up (principal * period * rate) 10000 in
    let total_amount' := quantize_half_up (principal + total_interest') 1 in
    let total_emis' := loan_period_years self * 12 in
    monthly_emi' ←
      (if 0 <? total_emis'
       then decimal_div_quantize total_amount' total_emis'
       else Ok total_amount');
    let remaining_balance' :=
      match remaining_balance self with
      | None => total_amount'
      | Some r => r
      end in
    Ok (mkLoan (loan_id self) (customer self) principal period rate
          (Some total_interest') (Some total_amount') (Some monthly_emi')
          (amount_paid self) (Some remaining_balance') (Some total_emis')
          (emis_paid self) (loan_status self))
  end.

(** [Loan.save]; [skip_validation] tells whether the instance carries the
    attribute [_skip_validation]. *)
Definition Loan_save (skip_validation : bool) (self : Loan) (db : DB)
  : result (Loan * DB) :=
  self ← calculate_loan_values self;
  if skip_validation
  then Ok (self, db_save_loan self db)
  else _ ← Loan_full_clean self; Ok (self, db_save_loan self db).

(** [Loan.emis_remaining] *)
Definition emis_remaining (self : Loan) : result Z :=
  te ← not_none (total_emis self); Ok (Z.max 0 (te - emis_paid self)).

(** [payment_amount != loan.monthly_emi]: a number differs from [None]. *)
Definition decimal_ne (x : Z) (o : option Z) : bool :=
  match o with
  | Some y => negb (x =? y)
  | None => true
  end.

Definition set_balance_after_payment (v : Z) (l : Loan) (p : Payment) : Payment :=
  mkPayment (payment_id p) l (payment_type p) (amount p) v.

(** "Update loan amounts", with "Ensure remaining balance doesn't go
    negative"; [rb] is the remaining balance before the payment. *)
Definition update_loan_amounts (payment_amount rb : Z) (loan : Loan) : Loan :=
  let loan :=
    set_amount_paid (quantize_half_up (amount_paid loan + payment_amount) 1) loan in
  let rb1 := quantize_half_up (rb - payment_amount) 1 in
  set_remaining_balance (Some (if rb1 <? 0 then 0 else rb1)) loan.

(** "Handle EMI vs Lump Sum logic - STRICT LOGIC". *)
Definition count_emis_paid (ty : PaymentType) (payment_amount : Z) (loan : Loan)
  : result Loan :=
  match ty with
  | EMI =>
    (* Only allow EMI payment if amount is exactly equal to monthly EMI *)
    if decimal_ne payment_amount (monthly_emi loan)
    then Raise (ValidationError (EmiAmountMismatch (monthly_emi loan)))
    else
      te ← not_none (total_emis loan);
      Ok (set_emis_paid (Z.min (emis_paid loan + 1) te) loan)
  | LUMP_SUM =>
    (* For lump sum, calculate how many EMIs this amount would cover *)
    emi ← not_none (monthly_emi loan);
    if 0 <? emi
    then
      emis_covered ← decimal_floordiv payment_amount emi;
      te ← not_none (total_emis loan);
      Ok (set_emis_paid (Z.min (emis_paid loan + emis_covered) te) loan)
    else Ok loan
  end.

(** "Check if loan is completed": a remaining balance of at most 0.01. *)
Definition check_completed (loan : Loan) : result Loan :=
  rb ← not_none (remaining_balance loan);
  if rb <=? 1
  then
    match total_emis loan with
    | Some te =>
      Ok (set_emis_paid te
            (set_remaining_balance (Some 0) (set_loan_status COMPLETED loan)))
    | None => Raise IntegrityError
    end
  else Ok loan.

(** The block of [Payment.save] under [if not self.pk:  # New payment], up to
    and including [loan.save()]. *)
Definition Payment_save_new (self : Payment) (db : DB) : result (Payment * DB) :=
  let loan0 := loan self in
  let payment_amount := amount self in
  (* Validate payment *)
  if negb (bool_decide (loan_status loan0 = ACTIVE))
  then Raise (ValidationError LoanInactive) else
  rb ← not_none (remaining_balance loan0);
  if rb <? payment_amount
  then Raise (ValidationError (AmountExceedsBalance payment_amount rb)) else
  let loan1 := update_loan_amounts payment_amount rb loan0 in
  loan2 ← count_emis_paid (payment_type self) payment_amount loan1;
  loan3 ← check_completed loan2;
  (* Set balance after payment; save the loan, skipping its validation *)
  let balance := default 0 (remaining_balance loan3) in
  '(loan4, db1) ← Loan_save true loan3 db;
  Ok (set_balance_after_payment balance loan4 self, db1).

(** [Payment.save] *)
Definition Payment_save (self : Payment) (db : DB) : result (Payment * DB) :=
  match payment_id self with
  | None =>
    '(self1, db1) ← Payment_save_new self db;
    Ok (self1, db_save_payment self1 db1)
  | Some _ => Ok (self, db_save_payment self db)
  end.

(** ** serializers.py *)

Record LoanData : Type := mkLoanData {
  data_customer_id : string;
  data_principal_amount : Z;
  data_loan_period_years : Z;
  data_interest_rate : Z
}.

Record PaymentData : Type := mkPaymentData {
  data_loan_id : UUID;
  data_payment_type : PaymentType;
  data_amount : Z
}.

(** [LoanCreateSerializer.validate_customer_id] *)
Definition LoanCreateSerializer_validate_customer_id (value : string) (db : DB)
  : result string :=
  if bool_decide (value ∈ customers db)
  then Ok value
  else Raise (ValidationError CustomerDoesNotExist).

(** [LoanCreateSerializer(data=..).is_valid()] *)
Definition LoanCreateSerializer_is_valid (data : LoanData) (db : DB)
  : result LoanData :=
  _ ← LoanCreateSerializer_validate_customer_id (data_customer_id data) db;
  Ok data.

(** The declared fields of [PaymentCreateSerializer]: [amount] has
    [min_value=Decimal('0.01')]. *)
Definition PaymentCreateSerializer_fields (data : PaymentData) : result PaymentData :=
  if data_amount data <? 1
  then Raise (ValidationError InvalidAmount)
  else Ok data.

(** [PaymentCreateSerializer.validate] *)
Definition PaymentCreateSerializer_validate (data : PaymentData) (db : DB)
  : result PaymentData :=
  match loans db !! data_loan_id data with
  | None => Raise (ValidationError LoanNotFound)
  | Some loan =>
    if negb (bool_decide (loan_status loan = ACTIVE))
    then Raise (ValidationError LoanInactive)
    else
      match remaining_balance loan with
      | None => Raise (ValidationError NoRemainingBalance)
      | Some rb =>
        if rb <=? 0
        then Raise (ValidationError NoRemainingBalance)
        else if rb <? data_amount data
        then Raise (ValidationError (AmountExceedsBalance (data_amount data) rb))
        else
          match data_payment_type data with
          | EMI =>
            te ← not_none (total_emis loan);
            if te <=? emis_paid loan
            then Raise (ValidationError AllInstallmentsPaid)
            else Ok data
          | LUMP_SUM => Ok data
          end
      end
  end.

(** [PaymentCreateSerializer(data=..).is_valid()]: the fields, then the
    cross-field [validate]. *)
Definition PaymentCreateSerializer_is_valid (data : PaymentData) (db : DB)
  : result PaymentData :=
  data ← PaymentCreateSerializer_fields data;
  PaymentCreateSerializer_validate data db.

(** ** views.py *)

Inductive Response (A : Type) : Type :=
| HTTP_201_CREATED (body : A)
| HTTP_400_BAD_REQUEST (errors : ErrorMsg)
| HTTP_404_NOT_FOUND
| HTTP_500_INTERNAL_SERVER_ERROR (e : Exception).
Arguments HTTP_201_CREATED {A} body.
Arguments HTTP_400_BAD_REQUEST {A} errors.
Arguments HTTP_404_NOT_FOUND {A}.
Arguments HTTP_500_INTERNAL_SERVER_ERROR {A} e.

(** A serializer that is not valid answers 400 with its errors; any other
    exception it lets through is an internal server error. *)
Definition invalid_response {A : Type} (e : Exception) : Response A :=
  match e with
  | ValidationError msg => HTTP_400_BAD_REQUEST msg
  | _ => HTTP_500_INTERNAL_SERVER_ERROR e
  end.

(** [Loan(customer=.., principal_amount=.., loan_period_years=..,
    interest_rate=..)]: the other fields take their defaults, [loan_id] the
    value [uuid4] drawn by [uuid.uuid4]. *)
Definition Loan_init (uuid4 : UUID) (customer_id : string) (principal period rate : Z)
  : Loan :=
  mkLoan uuid4 customer_id principal period rate None None None 0 None None 0 ACTIVE.

(** [loan.refresh_from_db()] *)
Definition refresh_from_db (l : Loan) (db : DB) : result Loan :=
  match loans db !! loan_id l with
  | Some l' => Ok l'
  | None => Raise DoesNotExist
  end.

(** [lend_loan]: LEND, create a new loan for a customer. *)
Definition lend_loan (uuid4 : UUID) (data : LoanData) (db : DB)
  : Response Loan * DB :=
  match LoanCreateSerializer_is_valid data db with
  | Raise e => (invalid_response e, db)
  | Ok validated_data =>
    if bool_decide (data_customer_id validated_data ∈ customers db)
    then
      match Loan_save false
              (Loan_init uuid4 (data_customer_id validated_data)
                 (data_principal_amount validated_data)
                 (data_loan_period_years validated_data)
                 (data_interest_rate validated_data)) db with
      | Raise e => (HTTP_500_INTERNAL_SERVER_ERROR e, db)
      | Ok (loan1, db1) =>
        match refresh_from_db loan1 db1 with
        | Raise e => (HTTP_500_INTERNAL_SERVER_ERROR e, db1)
        | Ok loan2 => (HTTP_201_CREATED loan2, db1)
        end
      end
    else (HTTP_404_NOT_FOUND, db)
  end.

(** [Payment(loan=.., payment_type=.., amount=..)].  [pk] is the primary key
    the instance holds when [Payment.save] tests [not self.pk]:
    [payment_id] has [default=uuid.uuid4], so the instance [objects.create]
    builds holds [Some uuid4]; [None] is an instance whose key was cleared,
    the only one to enter the block under [if not self.pk]. *)
Definition Payment_init (pk : option UUID) (l : Loan) (ty : PaymentType) (amt : Z)
  : Payment :=
  mkPayment pk l ty amt 0.

(** [make_payment]: PAYMENT, make a payment towards a loan.  The body of the
    201 response is the payment and the refreshed loan.  The view itself is
    [make_payment (Some uuid4)], with [uuid4] the key drawn for the payment;
    [make_payment None] is the same view over a [Payment] whose [save] would
    run its "New payment" block. *)
Definition make_payment (pk : option UUID) (data : PaymentData) (db : DB)
  : Response (Payment * Loan) * DB :=
  match PaymentCreateSerializer_is_valid data db with
  | Raise e => (invalid_response e, db)
  | Ok validated_data =>
    match loans db !! data_loan_id validated_data with
    | None => (HTTP_404_NOT_FOUND, db)
    | Some loan0 =>
      match Payment_save
              (Payment_init pk loan0 (data_payment_type validated_data)
                 (data_amount validated_data)) db with
      | Raise e => (HTTP_500_INTERNAL_SERVER_ERROR e, db)
      | Ok (payment, db1) =>
        match refresh_from_db (loan payment) db1 with
        | Raise _ => (HTTP_404_NOT_FOUND, db1)
        | Ok loan1 => (HTTP_201_CREATED (payment, loan1), db1)
        end
      end
    end
  end.

(** ** Histories of requests

    The two views that write loans and payments.  [create_customer], which
    adds a customer and touches no loan, is not among them: the customers
    of a history are those of the database it starts from. *)

Inductive Request : Type :=
| LendLoan (uuid4 : UUID) (data : LoanData)
| MakePayment (pk : option UUID) (data : PaymentData).

Definition handle (db : DB) (req : Request) : DB :=
  match req with
  | LendLoan uuid4 data => snd (lend_loan uuid4 data db)
  | MakePayment pk data => snd (make_payment pk data db)
  end.

(** The database after a sequence of requests, oldest first. *)
Definition serve (reqs : list Request) (db : DB) : DB := fold_left handle reqs db.

(** A database with customers and no loan yet. *)
Definition initial_db (cs : gset string) : DB := mkDB cs ∅ [].


(** ** Specification vocabulary *)

(** [r] is [num / den] rounded half-up to a whole number ([num >= 0],
    [den > 0]): [r - 1/2 <= num/den < r + 1/2]. *)
Definition is_half_up_rounding (num den r : Z) : Prop :=
  den * (2 * r - 1) <= 2 * num < den * (2 * r + 1).

(** The derived fields of a loan are all set, as [Loan.save] leaves them. *)
Definition derived_set (l : Loan) : Prop :=
  is_Some (total_interest l) ∧ is_Some (total_amount l) ∧
  is_Some (monthly_emi l) ∧ is_Some (remaining_balance l) ∧
  is_Some (total_emis l).

(** amount_paid + remaining_balance == total_amount *)
Definition balanced (l : Loan) : Prop :=
  match remaining_balance l, total_amount l with
  | Some rb, Some ta => amount_paid l + rb = ta
  | _, _ => False
  end.

(** 0 <= installments_paid <= total_installments *)
Definition installments_in_range (l : Loan) : Prop :=
  match total_emis l with
  | Some te => 0 <= emis_paid l <= te
  | None => False
  end.

(** What every stored loan satisfies after any sequence of requests. *)
Definition well_formed (l : Loan) : Prop :=
  derived_set l ∧ installments_in_range l.





(** ** Concrete ledgers used below *)

(** One customer, and a loan of [principal] cents over one year at 0%. *)
Definition one_customer : DB := initial_db {["C001"%string]}.

Definition one_loan (principal : Z) : DB :=
  snd (lend_loan 1%N (mkLoanData "C001" principal 1 0) one_customer).

(** The loan of the specification's scenario: 100000.00 over two years at
    10.00%, 24 EMIs of 5000.00. *)
Definition scenario_loan : DB :=
  snd (lend_loan 1%N (mkLoanData "C001" 10000000 2 1000) one_customer).


(** ** Code beside the payment path *)

(** What [Payment.clean] raises, if anything. *)
Inductive PaymentCleanError : Type :=
| CleanAmountNotPositive   (* "Payment amount must be positive" *)
| CleanLoanInactive        (* "Cannot make payment on inactive loan" *)
| CleanExceedsBalance      (* "Payment amount cannot exceed remaining balance" *)
| CleanTypeError           (* the amount ordered against a balance of [None] *).

(** [Payment.clean]: [None] when it returns normally.  [self.loan] is a model
    instance, which is true in a condition. *)
Definition Payment_clean (self : Payment) : option PaymentCleanError :=
  if truthy (amount self) && (amount self <=? 0)
  then Some CleanAmountNotPositive
  else if negb (bool_decide (loan_status (loan self) = ACTIVE))
  then Some CleanLoanInactive
  else if truthy (amount self)
  then
    match remaining_balance (loan self) with
    | None => Some CleanTypeError
    | Some rb => if rb <? amount self then Some CleanExceedsBalance else None
    end
  else None.

(** The response of a GET view. *)
Inductive GetResponse (A : Type) : Type :=
| HTTP_200_OK (body : A)
| GET_404_NOT_FOUND
| GET_500_INTERNAL_SERVER_ERROR (e : Exception).
Arguments HTTP_200_OK {A} body.
Arguments GET_404_NOT_FOUND {A}.
Arguments GET_500_INTERNAL_SERVER_ERROR {A} e.

(** [sum(.. for loan in loans)] over a nullable decimal column. *)
Definition decimal_sum (xs : list (option Z)) : result Z :=
  fold_left (λ acc x, a ← acc; v ← not_none x; Ok (a + v)) xs (Ok 0).

(** The body of [account_overview].  [overview_loans] pairs each loan with
    its [emis_remaining], as [LoanResponseSerializer] shows it; the view
    orders them by creation time, which the embedding does not have, so the
    list is in the order of the store. *)
Record Overview : Type := mkOverview {
  overview_customer_id : string;
  total_loans : nat;
  active_loans : nat;
  completed_loans : nat;
  total_principal_amount : Z;
  total_amount_all_loans : Z;
  total_amount_paid : Z;
  total_remaining_balance : Z;
  overview_loans : list (Loan * Z)
}.

(** [Loan.objects.filter(customer=customer)] *)
Definition loans_of (customer_id : string) (db : DB) : list Loan :=
  filter (λ l, customer l = customer_id) (map_to_list (loans db)).*2.

(** [account_overview]: ACCOUNT OVERVIEW, all loans of a customer. *)
Definition account_overview (customer_id : string) (db : DB) : GetResponse Overview :=
  if bool_decide (customer_id ∈ customers db)
  then
    let ls := loans_of customer_id db in
    match
      loans_data ← mapM (λ l, r ← emis_remaining l; Ok (l, r)) ls;
      total_principal ← decimal_sum (Some <$> (principal_amount <$> ls));
      total_amount_all_loans ← decimal_sum (total_amount <$> ls);
      total_remaining ← decimal_sum (remaining_balance <$> ls);
      total_paid ← decimal_sum (Some <$> (amount_paid <$> ls));
      let active := filter (λ l, loan_status l = ACTIVE) ls in
      let completed := filter (λ l, loan_status l = COMPLETED) ls in
      Ok (mkOverview customer_id (length ls) (length active) (length completed)
            total_principal total_amount_all_loans total_paid total_remaining
            loans_data)
    with
    | Ok body => HTTP_200_OK body
    | Raise e => GET_500_INTERNAL_SERVER_ERROR e
    end
  else GET_404_NOT_FOUND.

(** The state of the ledger of a stored loan, by status. *)
Definition ledger_consistent (l : Loan) : Prop :=
  match remaining_balance l, total_amount l with
  | Some rb, Some ta =>
    0 <= amount_paid l ∧
    match loan_status l with
    | ACTIVE => amount_paid l + rb = ta ∧ 0 <= rb
    | COMPLETED =>
      rb = 0 ∧ ta - 1 <= amount_paid l <= ta ∧ total_emis l = Some (emis_paid l)
    | DEFAULTED => False
    end
  | _, _ => False
  end.

(** Every loan is stored under its own [loan_id]. *)
Definition keyed_by_id (db : DB) : Prop :=
  ∀ (id : UUID) (l : Loan), loans db !! id = Some l → loan_id l = id.

(** * Properties *)

(** ** Rounding *)

Section Rounding.

(** Quantizing a whole number of cents changes nothing: the sums and
    differences of [Payment.save] are exact. *)
Lemma quantize_half_up_cents (x : Z) : quantize_half_up x 1 = x.
Proof.
  unfold quantize_half_up.
  replace (2 * Z.abs x + 1) with (1 + Z.abs x * (2 * 1)) by lia.
  rewrite Z.div_add by lia.
  change (1 / (2 * 1)) with 0.
  destruct x; cbn; lia.
Qed.

(** On a non-negative fraction [quantize_half_up] is rounding half-up. *)
Lemma quantize_half_up_rounds (num den : Z) :
  0 <= num → 0 < den → is_half_up_rounding num den (quantize_half_up num den).
Proof.
  intros Hnum Hden. unfold is_half_up_rounding, quantize_half_up.
  destruct (Z.eq_dec num 0) as [-> | Hnz].
  - cbn. lia.
  - rewrite Z.sgn_pos, Z.abs_eq, Z.mul_1_l by lia.
    pose proof (Z.div_mod (2 * num + den) (2 * den) ltac:(lia)) as Hdm.
    pose proof (Z.mod_pos_bound (2 * num + den) (2 * den) ltac:(lia)) as Hb.
    nia.
Qed.

(** Half-up rounding determines its result. *)
Lemma is_half_up_rounding_unique (num den r r' : Z) :
  0 < den →
  is_half_up_rounding num den r → is_half_up_rounding num den r' → r = r'.
Proof. unfold is_half_up_rounding. intros Hden H1 H2. nia. Qed.

Lemma quantize_half_up_nonneg (num den : Z) :
  0 <= num → 0 < den → 0 <= quantize_half_up num den.
Proof.
  intros Hnum Hden. unfold quantize_half_up.
  apply Z.mul_nonneg_nonneg; [apply Z.sgn_nonneg; lia |].
  apply Z.div_pos; lia.
Qed.

End Rounding.

(** ** The result monad *)

Section ResultMonad.

Context {A B : Type}.

Lemma bind_Ok (m : result A) (f : A → result B) (b : B) :
  m ≫= f = Ok b → ∃ a, m = Ok a ∧ f a = Ok b.
Proof. destruct m as [a | e]; [eauto | discriminate]. Qed.

Lemma bind_Raise (m : result A) (f : A → result B) (e : Exception) :
  m ≫= f = Raise e → m = Raise e ∨ ∃ a, m = Ok a ∧ f a = Raise e.
Proof. destruct m as [a | e']; [eauto | intros [= ->]; by left]. Qed.

End ResultMonad.

(** ** Loan creation *)

Section LoanCreation.

Implicit Types (l : Loan) (db : DB) (P N R : Z).

(** [Loan.clean] lets a loan through exactly when none of the three
    origination inputs is negative: zero passes each of its tests. *)
Lemma Loan_clean_ok l :
  Loan_clean l = Ok tt ↔
  0 <= principal_amount l ∧ 0 <= loan_period_years l ∧ 0 <= interest_rate l.
Proof.
  unfold Loan_clean, truthy.
  destruct (Z.eqb_spec (principal_amount l) 0), (Z.leb_spec (principal_amount l) 0),
    (Z.eqb_spec (loan_period_years l) 0), (Z.leb_spec (loan_period_years l) 0),
    (Z.ltb_spec (interest_rate l) 0); cbn; split; intros Hres;
    try discriminate; try reflexivity; lia.
Qed.

(** The values [Loan.save] calculates for a fresh instance. *)
Lemma calculate_loan_values_init (uuid4 : UUID) (cust : string) P N R :
  0 < N →
  calculate_loan_values (Loan_init uuid4 cust P N R) =
  let I := quantize_half_up (P * N * R) 10000 in
  Ok (mkLoan uuid4 cust P N R (Some I) (Some (P + I))
        (Some (quantize_half_up (P + I) (N * 12))) 0 (Some (P + I))
        (Some (N * 12)) 0 ACTIVE).
Proof.
  intros HN. unfold calculate_loan_values, Loan_init, decimal_div_quantize. cbn.
  rewrite quantize_half_up_cents.
  destruct (Z.ltb_spec 0 (N * 12)); [| lia].
  destruct (Z.eqb_spec (N * 12) 0); [lia |]. reflexivity.
Qed.

(** [calculate_loan_values] touches derived fields only. *)
Lemma calculate_loan_values_inputs l l' :
  calculate_loan_values l = Ok l' →
  loan_id l' = loan_id l ∧ principal_amount l' = principal_amount l ∧
  loan_period_years l' = loan_period_years l ∧
  interest_rate l' = interest_rate l ∧ amount_paid l' = amount_paid l ∧
  emis_paid l' = emis_paid l ∧ loan_status l' = loan_status l.
Proof.
  unfold calculate_loan_values. intros Hcalc.
  destruct (total_amount l), (total_interest l);
    try (injection Hcalc as <-; done);
    (apply bind_Ok in Hcalc as (emi & _ & Hcalc); injection Hcalc as <-; done).
Qed.

(** With its derived totals set, a loan is saved as it is. *)
Lemma calculate_loan_values_set l :
  is_Some (total_amount l) → is_Some (total_interest l) →
  calculate_loan_values l = Ok l.
Proof. intros [ta Hta] [ti Hti]. unfold calculate_loan_values. by rewrite Hta, Hti. Qed.

(** [Loan.clean_fields] lets a loan through exactly when each decimal
    field fits its column. *)
Lemma Loan_clean_fields_ok l :
  Loan_clean_fields l = Ok tt ↔
  decimal_fits 12 (principal_amount l) ∧ decimal_fits 5 (interest_rate l) ∧
  nullable_fits 12 (total_interest l) ∧ nullable_fits 12 (total_amount l) ∧
  nullable_fits 12 (monthly_emi l) ∧ decimal_fits 12 (amount_paid l) ∧
  nullable_fits 12 (remaining_balance l).
Proof.
  unfold Loan_clean_fields.
  destruct (decimal_fits 12 (principal_amount l)), (decimal_fits 5 (interest_rate l)),
    (nullable_fits 12 (total_interest l)), (nullable_fits 12 (total_amount l)),
    (nullable_fits 12 (monthly_emi l)), (decimal_fits 12 (amount_paid l)),
    (nullable_fits 12 (remaining_balance l)); cbn; split; intros Hres;
    try discriminate; try reflexivity; try (by repeat split);
    exfalso; destruct Hres as (H1 & H2 & H3 & H4 & H5 & H6 & H7); by cbn in *.
Qed.

Lemma decimal_fits_spec (max_digits v : Z) :
  decimal_fits max_digits v ↔ Z.abs v < 10 ^ max_digits.
Proof.
  unfold decimal_fits. destruct (Z.ltb_spec (Z.abs v) (10 ^ max_digits)); cbn.
  - by split.
  - split; [done | lia].
Qed.

Lemma Loan_full_clean_ok l :
  Loan_full_clean l = Ok tt ↔ Loan_clean_fields l = Ok tt ∧ Loan_clean l = Ok tt.
Proof.
  unfold Loan_full_clean. destruct (Loan_clean_fields l) as [[] | e]; cbn.
  - split; [by split | by intros [_ H]].
  - split; [done | by intros [H _]].
Qed.

Lemma Loan_save_validated l db l' db' :
  Loan_save false l db = Ok (l', db') →
  calculate_loan_values l = Ok l' ∧ Loan_full_clean l' = Ok tt ∧
  db' = db_save_loan l' db.
Proof.
  unfold Loan_save. intros Hsave.
  apply bind_Ok in Hsave as (l1 & Hcalc & Hsave).
  apply bind_Ok in Hsave as ([] & Hclean & Hsave).
  injection Hsave as <- <-. done.
Qed.

Lemma Loan_save_validating l db l' db' :
  Loan_save false l db = Ok (l', db') →
  calculate_loan_values l = Ok l' ∧ Loan_clean l' = Ok tt ∧ db' = db_save_loan l' db.
Proof.
  intros (Hcalc & Hclean & Hdb)%Loan_save_validated.
  apply Loan_full_clean_ok in Hclean as [_ Hclean]. done.
Qed.

Lemma Loan_save_skipping l db :
  Loan_save true l db =
  l' ← calculate_loan_values l; Ok (l', db_save_loan l' db).
Proof. reflexivity. Qed.

(** A saved loan is read back as it was written. *)
Lemma refresh_after_save l db : refresh_from_db l (db_save_loan l db) = Ok l.
Proof. unfold refresh_from_db, db_save_loan. cbn. by rewrite lookup_insert_eq. Qed.

(** What [lend_loan] stores. *)
Lemma lend_loan_stores (uuid4 : UUID) (data : LoanData) db :
  snd (lend_loan uuid4 data db) = db ∨
  ∃ l, Loan_save false
         (Loan_init uuid4 (data_customer_id data) (data_principal_amount data)
            (data_loan_period_years data) (data_interest_rate data)) db =
       Ok (l, db_save_loan l db) ∧
       lend_loan uuid4 data db = (HTTP_201_CREATED l, db_save_loan l db).
Proof.
  unfold lend_loan.
  destruct (LoanCreateSerializer_is_valid data db) as [v | e] eqn:Hvalid;
    [| by left].
  assert (v = data) as ->.
  { unfold LoanCreateSerializer_is_valid in Hvalid.
    apply bind_Ok in Hvalid as (? & _ & Hvalid). by injection Hvalid. }
  destruct (bool_decide _); [| by left].
  destruct (Loan_save false _ db) as [[l1 db1] | e] eqn:Hsave; [| by left].
  pose proof (Loan_save_validating _ _ _ _ Hsave) as (_ & _ & ->).
  rewrite refresh_after_save. right. by exists l1.
Qed.

(** A negative origination input is rejected and nothing is stored. *)
Lemma lend_loan_rejects_negative (uuid4 : UUID) (data : LoanData) db :
  data_principal_amount data < 0 ∨ data_loan_period_years data < 0 ∨
  data_interest_rate data < 0 →
  snd (lend_loan uuid4 data db) = db ∧
  ∀ l, fst (lend_loan uuid4 data db) ≠ HTTP_201_CREATED l.
Proof.
  intros Hneg.
  assert (Hno : ∀ l db', Loan_save false
            (Loan_init uuid4 (data_customer_id data) (data_principal_amount data)
               (data_loan_period_years data) (data_interest_rate data)) db ≠
            Ok (l, db')).
  { intros l db' Hsave.
    apply Loan_save_validating in Hsave as (Hcalc & Hclean & _).
    apply calculate_loan_values_inputs in Hcalc as (_ & HP & HN & HR & _).
    apply Loan_clean_ok in Hclean. cbn in HP, HN, HR. lia. }
  unfold lend_loan.
  destruct (LoanCreateSerializer_is_valid data db) as [v | e] eqn:Hvalid.
  - assert (v = data) as ->.
    { unfold LoanCreateSerializer_is_valid in Hvalid.
      apply bind_Ok in Hvalid as (? & _ & Hvalid). by injection Hvalid. }
    destruct (bool_decide _); [| done].
    destruct (Loan_save false _ db) as [[l1 db1] | e] eqn:Hsave; [| done].
    exfalso. by apply (Hno l1 db1).
  - split; [done |]. intros l. by destruct e.
Qed.

(** C5 (as amended).  For an origination input with P > 0 cents, N > 0 years and R >= 0
    hundredths of a percent whose principal, rate and total amount fit their
    columns (P and P + total_interest below 10^12 cents, R below 10^5
    hundredths of a percent) and whose number of installments N * 12 fits an
    integer column of 32 bits, loan creation succeeds and stores
    total_interest = P * N * R / 100 rounded half-up to the cent (in cents:
    P * N * R / 10000), total_amount = P + total_interest (rounded, which is
    exact), total_installments = N * 12 and installment_amount =
    total_amount / total_installments rounded half-up to the cent; the balance
    starts at total_amount with nothing paid.  With P = 100000.00, N = 2 and
    R = 10.00 these are 20000.00, 120000.00, 24 and 5000.00. *)
Theorem loan_creation_derives_terms (uuid4 : UUID) (cust : string) P N R db :
  0 < P → 0 < N → 0 <= R →
  P < 10 ^ 12 → R < 10 ^ 5 → N * 12 <= 2147483647 →
  P + quantize_half_up (P * N * R) 10000 < 10 ^ 12 →
  cust ∈ customers db →
  (∃ l I A E,
     lend_loan uuid4 (mkLoanData cust P N R) db =
     (HTTP_201_CREATED l, db_save_loan l db) ∧
     Loan_save false (Loan_init uuid4 cust P N R) db = Ok (l, db_save_loan l db) ∧
     total_interest l = Some I ∧ is_half_up_rounding (P * N * R) 10000 I ∧
     total_amount l = Some A ∧ is_half_up_rounding (P + I) 1 A ∧
     total_emis l = Some (N * 12) ∧
     monthly_emi l = Some E ∧ is_half_up_rounding A (N * 12) E ∧
     remaining_balance l = Some A ∧ amount_paid l = 0 ∧ emis_paid l = 0 ∧
     loan_status l = ACTIVE) ∧
  (let l := mkLoan uuid4 cust 10000000 2 1000 (Some 2000000) (Some 12000000)
              (Some 500000) 0 (Some 12000000) (Some 24) 0 ACTIVE in
   Loan_save false (Loan_init uuid4 cust 10000000 2 1000) db =
   Ok (l, db_save_loan l db)).
Proof.
  intros HP HN HR HP12 HR5 HN32 HA12 Hcust. split; [| reflexivity].
  pose proof (quantize_half_up_nonneg (P * N * R) 10000 ltac:(nia) ltac:(lia)) as HI.
  set (I := quantize_half_up (P * N * R) 10000) in *.
  pose proof (quantize_half_up_rounds (P + I) (N * 12) ltac:(lia) ltac:(lia)) as HE.
  pose proof (quantize_half_up_nonneg (P + I) (N * 12) ltac:(lia) ltac:(lia)) as HE0.
  set (E := quantize_half_up (P + I) (N * 12)) in *.
  assert (HEA : E <= P + I) by (unfold is_half_up_rounding in HE; nia).
  set (l := mkLoan uuid4 cust P N R (Some I) (Some (P + I)) (Some E) 0
              (Some (P + I)) (Some (N * 12)) 0 ACTIVE).
  assert (Hsave : Loan_save false (Loan_init uuid4 cust P N R) db =
                  Ok (l, db_save_loan l db)).
  { unfold Loan_save. rewrite calculate_loan_values_init by lia.
    cbn [mbind result_bind]. fold I E l.
    assert (Loan_full_clean l = Ok tt) as ->; [| reflexivity].
    apply Loan_full_clean_ok. split.
    - apply Loan_clean_fields_ok. cbn [l principal_amount interest_rate
        total_interest total_amount monthly_emi amount_paid remaining_balance
        nullable_fits].
      rewrite !decimal_fits_spec. lia.
    - apply Loan_clean_ok. cbn. lia. }
  exists l, I, (P + I), E.
  split.
  { assert (Hvalid : LoanCreateSerializer_is_valid (mkLoanData cust P N R) db =
                      Ok (mkLoanData cust P N R)).
    { unfold LoanCreateSerializer_is_valid,
        LoanCreateSerializer_validate_customer_id.
      cbn [data_customer_id]. by rewrite bool_decide_true. }
    unfold lend_loan. rewrite Hvalid.
    cbn [data_customer_id data_principal_amount data_loan_period_years
         data_interest_rate].
    rewrite bool_decide_true by done.
    rewrite Hsave, refresh_after_save. reflexivity. }
  split; [exact Hsave |].
  cbn. split; [reflexivity |]. split; [apply quantize_half_up_rounds; [nia | lia] |].
  split; [reflexivity |]. split; [unfold is_half_up_rounding; lia |].
  split; [reflexivity |]. split; [reflexivity |]. split; [exact HE |]. done.
Qed.

(** The scenario of the specification: 100000.00 over 2 years at 10.00%. *)
Lemma loan_creation_derives_terms_witness :
  ∃ l, Loan_save false (Loan_init 1%N "C001" 10000000 2 1000) one_customer =
       Ok (l, db_save_loan l one_customer) ∧
       monthly_emi l = Some 500000.
Proof.
  destruct (loan_creation_derives_terms 1%N "C001" 10000000 2 1000 one_customer)
    as [_ H]; [lia | lia | lia | lia | lia | lia | vm_compute; reflexivity
              | vm_compute; reflexivity |].
  eexists. split; [exact H | reflexivity].
Defined.

(** C5 as stated fails: a principal of 9999999999.99 over 2 years at 10.00%
    passes every test on the inputs, yet its total amount, 11999999999.99, has more digits than
    its column holds: [full_clean] raises, the view answers 500 and no loan
    is stored. *)
Lemma loan_creation_derives_terms_counterexample :
  0 < 999999999999 ∧ 0 < 2 ∧ 0 <= 1000 ∧
  lend_loan 1%N (mkLoanData "C001" 999999999999 2 1000) one_customer =
  (HTTP_500_INTERNAL_SERVER_ERROR (ValidationError EnsureNoMoreDigits),
   one_customer) ∧
  Loan_save false (Loan_init 1%N "C001" 999999999999 2 1000) one_customer =
  Raise (ValidationError EnsureNoMoreDigits).
Proof.
  split; [lia |]. split; [lia |]. split; [lia |].
  split; vm_compute; reflexivity.
Qed.

(** C4.  A principal of 0.00 is not rejected: [Loan.clean] tests
    [self.principal_amount and self.principal_amount <= 0], which is false at
    zero, so the loan is created and stored with its derived fields. *)
Theorem lend_loan_accepts_zero_principal :
  let l := mkLoan 1%N "C001" 0 1 1000 (Some 0) (Some 0) (Some 0) 0 (Some 0)
             (Some 12) 0 ACTIVE in
  Loan_clean (Loan_init 1%N "C001" 0 1 1000) = Ok tt ∧
  lend_loan 1%N (mkLoanData "C001" 0 1 1000) one_customer =
  (HTTP_201_CREATED l, db_save_loan l one_customer) ∧
  loans (snd (lend_loan 1%N (mkLoanData "C001" 0 1 1000) one_customer)) !! 1%N =
  Some l.
Proof. cbn zeta. split; [reflexivity |]. split; vm_compute; reflexivity. Qed.

(** A period of zero years passes in the same way. *)
Lemma lend_loan_accepts_zero_period :
  ∃ l, fst (lend_loan 1%N (mkLoanData "C001" 100000 0 1000) one_customer) =
       HTTP_201_CREATED l ∧ total_emis l = Some 0.
Proof. eexists. split; vm_compute; reflexivity. Qed.

End LoanCreation.

(** ** The block of [Payment.save] under [if not self.pk]

    What the block does when it runs.  The invariants below hold on both
    branches of [Payment.save]; these lemmas serve their [None] branch. *)

Section Payments.

Implicit Types (l : Loan) (p : Payment) (db : DB) (data : PaymentData).

(** The steps of the block, one at a time. *)
Lemma update_loan_amounts_within (amt rb : Z) l :
  amt <= rb →
  update_loan_amounts amt rb l =
  set_remaining_balance (Some (rb - amt)) (set_amount_paid (amount_paid l + amt) l).
Proof.
  intros Hle. unfold update_loan_amounts. rewrite !quantize_half_up_cents.
  destruct (Z.ltb_spec (rb - amt) 0); [lia | reflexivity].
Qed.

Lemma count_emis_paid_exact (amt te : Z) l :
  monthly_emi l = Some amt → total_emis l = Some te →
  count_emis_paid EMI amt l = Ok (set_emis_paid (Z.min (emis_paid l + 1) te) l).
Proof.
  intros Hemi Hte. unfold count_emis_paid, decimal_ne.
  rewrite Hemi, Hte, Z.eqb_refl. reflexivity.
Qed.

Lemma count_emis_paid_mismatch (amt : Z) l :
  monthly_emi l ≠ Some amt →
  count_emis_paid EMI amt l =
  Raise (ValidationError (EmiAmountMismatch (monthly_emi l))).
Proof.
  intros Hne. unfold count_emis_paid, decimal_ne.
  destruct (monthly_emi l) as [emi |]; [| reflexivity].
  destruct (Z.eqb_spec amt emi) as [-> | _]; [done | reflexivity].
Qed.

Lemma count_emis_paid_lump_sum (amt emi te : Z) l :
  monthly_emi l = Some emi → 0 < emi → total_emis l = Some te →
  count_emis_paid LUMP_SUM amt l =
  Ok (set_emis_paid (Z.min (emis_paid l + amt ÷ emi) te) l).
Proof.
  intros Hemi Hpos Hte. unfold count_emis_paid, decimal_floordiv.
  rewrite Hemi, Hte. cbn [not_none mbind result_bind].
  destruct (Z.ltb_spec 0 emi); [| lia].
  destruct (Z.eqb_spec emi 0); [lia | reflexivity].
Qed.

Lemma count_emis_paid_lump_sum_unpriced (amt emi : Z) l :
  monthly_emi l = Some emi → emi <= 0 →
  count_emis_paid LUMP_SUM amt l = Ok l.
Proof.
  intros Hemi Hle. unfold count_emis_paid.
  rewrite Hemi. cbn [not_none mbind result_bind].
  destruct (Z.ltb_spec 0 emi); [lia | reflexivity].
Qed.

Lemma check_completed_within (rb te : Z) l :
  remaining_balance l = Some rb → rb <= 1 → total_emis l = Some te →
  check_completed l =
  Ok (set_emis_paid te
        (set_remaining_balance (Some 0) (set_loan_status COMPLETED l))).
Proof.
  intros Hrb Hle Hte. unfold check_completed.
  rewrite Hrb, Hte. cbn [not_none mbind result_bind].
  destruct (Z.leb_spec rb 1); [reflexivity | lia].
Qed.

Lemma check_completed_above (rb : Z) l :
  remaining_balance l = Some rb → 1 < rb → check_completed l = Ok l.
Proof.
  intros Hrb Hlt. unfold check_completed.
  rewrite Hrb. cbn [not_none mbind result_bind].
  destruct (Z.leb_spec rb 1); [lia | reflexivity].
Qed.

(** The loan a payment of [amt] of type [ty] leaves, from a balance [rb], a
    monthly EMI [emi] and [te] EMIs in all. *)
Lemma ledger_steps (ty : PaymentType) (amt rb emi te : Z) l :
  loan_status l = ACTIVE →
  remaining_balance l = Some rb → monthly_emi l = Some emi →
  total_emis l = Some te → amt <= rb → (ty = EMI → amt = emi) →
  count_emis_paid ty amt (update_loan_amounts amt rb l) ≫= check_completed =
  Ok (set_emis_paid
        (if rb - amt <=? 1 then te
         else match ty with
              | EMI => Z.min (emis_paid l + 1) te
              | LUMP_SUM =>
                if 0 <? emi then Z.min (emis_paid l + amt ÷ emi) te
                else emis_paid l
              end)
        (set_remaining_balance (Some (if rb - amt <=? 1 then 0 else rb - amt))
           (set_loan_status (if rb - amt <=? 1 then COMPLETED else ACTIVE)
              (set_amount_paid (amount_paid l + amt) l)))).
Proof.
  intros Hst Hrb Hemi Hte Hle Hexact.
  rewrite update_loan_amounts_within by done.
  set (l1 := set_remaining_balance _ _).
  assert (Hrb1 : remaining_balance l1 = Some (rb - amt)) by reflexivity.
  assert (Hemi1 : monthly_emi l1 = Some emi) by exact Hemi.
  assert (Hte1 : total_emis l1 = Some te) by exact Hte.
  assert (Hcount : ∃ l2, count_emis_paid ty amt l1 = Ok l2 ∧
    remaining_balance l2 = Some (rb - amt) ∧ total_emis l2 = Some te ∧
    l2 = set_emis_paid
           match ty with
           | EMI => Z.min (emis_paid l + 1) te
           | LUMP_SUM =>
             if 0 <? emi then Z.min (emis_paid l + amt ÷ emi) te
             else emis_paid l
           end l1).
  { destruct ty.
    - rewrite (Hexact eq_refl) in *.
      rewrite (count_emis_paid_exact emi te) by done. eauto.
    - destruct (Z.ltb_spec 0 emi).
      + rewrite (count_emis_paid_lump_sum amt emi te) by done. eauto.
      + rewrite (count_emis_paid_lump_sum_unpriced amt emi) by done.
        exists l1. by repeat split. }
  destruct Hcount as (l2 & -> & Hrb2 & Hte2 & ->).
  cbn [mbind result_bind].
  destruct (Z.leb_spec (rb - amt) 1).
  - rewrite (check_completed_within (rb - amt) te) by done. reflexivity.
  - rewrite (check_completed_above (rb - amt)) by done.
    rewrite <- Hst. reflexivity.
Qed.

(** [Loan.save] always has values to store. *)
Lemma calculate_loan_values_total l : ∃ l', calculate_loan_values l = Ok l'.
Proof.
  destruct (calculate_loan_values l) as [l' | e] eqn:Hcalc; [by exists l' |].
  exfalso. revert Hcalc. unfold calculate_loan_values, decimal_div_quantize.
  destruct (total_amount l), (total_interest l); try discriminate;
    destruct (Z.ltb_spec 0 (loan_period_years l * 12));
    try destruct (Z.eqb_spec (loan_period_years l * 12) 0);
    cbn [mbind result_bind]; first [discriminate | lia].
Qed.

(** The first three checks of the block. *)
Lemma Payment_save_new_inactive p db :
  loan_status (loan p) ≠ ACTIVE →
  Payment_save_new p db = Raise (ValidationError LoanInactive).
Proof.
  intros Hst. unfold Payment_save_new.
  by rewrite bool_decide_eq_false_2.
Qed.

Lemma Payment_save_new_exceeds p db rb :
  loan_status (loan p) = ACTIVE → remaining_balance (loan p) = Some rb →
  rb < amount p →
  Payment_save_new p db =
  Raise (ValidationError (AmountExceedsBalance (amount p) rb)).
Proof.
  intros Hst Hrb Hlt. unfold Payment_save_new.
  rewrite bool_decide_eq_true_2 by done. rewrite Hrb.
  cbn [negb not_none mbind result_bind].
  destruct (Z.ltb_spec rb (amount p)); [reflexivity | lia].
Qed.

Lemma Payment_save_new_checked p db rb :
  loan_status (loan p) = ACTIVE → remaining_balance (loan p) = Some rb →
  amount p <= rb →
  Payment_save_new p db =
  loan2 ← count_emis_paid (payment_type p) (amount p)
             (update_loan_amounts (amount p) rb (loan p));
  loan3 ← check_completed loan2;
  '(loan4, db1) ← Loan_save true loan3 db;
  Ok (set_balance_after_payment (default 0 (remaining_balance loan3)) loan4 p, db1).
Proof.
  intros Hst Hrb Hle. unfold Payment_save_new.
  rewrite bool_decide_eq_true_2 by done. rewrite Hrb.
  cbn [negb not_none mbind result_bind].
  destruct (Z.ltb_spec rb (amount p)); [lia | reflexivity].
Qed.

(** The EMI check of the block: any amount but the monthly EMI raises. *)
Lemma Payment_save_new_mismatch p db rb :
  loan_status (loan p) = ACTIVE → remaining_balance (loan p) = Some rb →
  amount p <= rb → payment_type p = EMI →
  monthly_emi (loan p) ≠ Some (amount p) →
  Payment_save_new p db =
  Raise (ValidationError (EmiAmountMismatch (monthly_emi (loan p)))).
Proof.
  intros Hst Hrb Hle Hty Hne.
  rewrite (Payment_save_new_checked p db rb), Hty by done.
  rewrite count_emis_paid_mismatch; [reflexivity |].
  rewrite update_loan_amounts_within by done. exact Hne.
Qed.

(** The state a new payment leaves on a loan whose derived fields are set. *)
Lemma Payment_save_new_applied p db rb emi te :
  is_Some (total_amount (loan p)) → is_Some (total_interest (loan p)) →
  loan_status (loan p) = ACTIVE → remaining_balance (loan p) = Some rb →
  monthly_emi (loan p) = Some emi → total_emis (loan p) = Some te →
  amount p <= rb → (payment_type p = EMI → amount p = emi) →
  ∃ l',
    Payment_save_new p db =
    Ok (set_balance_after_payment
          (if rb - amount p <=? 1 then 0 else rb - amount p) l' p,
        db_save_loan l' db) ∧
    l' =
      set_emis_paid
        (if rb - amount p <=? 1 then te
         else match payment_type p with
              | EMI => Z.min (emis_paid (loan p) + 1) te
              | LUMP_SUM =>
                if 0 <? emi then Z.min (emis_paid (loan p) + amount p ÷ emi) te
                else emis_paid (loan p)
              end)
        (set_remaining_balance
           (Some (if rb - amount p <=? 1 then 0 else rb - amount p))
           (set_loan_status (if rb - amount p <=? 1 then COMPLETED else ACTIVE)
              (set_amount_paid (amount_paid (loan p) + amount p) (loan p)))).
Proof.
  intros Hta Hti Hst Hrb Hemi Hte Hle Hexact.
  eexists. split; [| reflexivity].
  rewrite (Payment_save_new_checked p db rb) by done.
  pose proof (ledger_steps (payment_type p) (amount p) rb emi te (loan p)
                Hst Hrb Hemi Hte Hle Hexact) as Hsteps.
  destruct (count_emis_paid _ _ _) as [l2 |]; [| discriminate].
  cbn [mbind result_bind] in Hsteps |- *. rewrite Hsteps.
  cbn [mbind result_bind]. rewrite Loan_save_skipping.
  rewrite calculate_loan_values_set by done.
  cbn [mbind result_bind].
  by destruct (rb - amount p <=? 1).
Qed.

(** What had to hold for a new payment to be applied. *)
Lemma Payment_save_new_Ok p db p' db' :
  derived_set (loan p) →
  Payment_save_new p db = Ok (p', db') →
  ∃ rb emi te,
    loan_status (loan p) = ACTIVE ∧ remaining_balance (loan p) = Some rb ∧
    monthly_emi (loan p) = Some emi ∧ total_emis (loan p) = Some te ∧
    amount p <= rb ∧ (payment_type p = EMI → amount p = emi) ∧
    db' = db_save_loan (loan p') db ∧
    p' = set_balance_after_payment
           (if rb - amount p <=? 1 then 0 else rb - amount p) (loan p') p ∧
    loan p' =
      set_emis_paid
        (if rb - amount p <=? 1 then te
         else match payment_type p with
              | EMI => Z.min (emis_paid (loan p) + 1) te
              | LUMP_SUM =>
                if 0 <? emi then Z.min (emis_paid (loan p) + amount p ÷ emi) te
                else emis_paid (loan p)
              end)
        (set_remaining_balance
           (Some (if rb - amount p <=? 1 then 0 else rb - amount p))
           (set_loan_status (if rb - amount p <=? 1 then COMPLETED else ACTIVE)
              (set_amount_paid (amount_paid (loan p) + amount p) (loan p)))).
Proof.
  intros (Hti & Hta & [emi Hemi] & [rb Hrb] & [te Hte]) Hsave.
  exists rb, emi, te.
  destruct (decide (loan_status (loan p) = ACTIVE)) as [Hst | Hst];
    [| by rewrite Payment_save_new_inactive in Hsave].
  destruct (Z.lt_ge_cases rb (amount p)) as [Hlt | Hle];
    [by rewrite (Payment_save_new_exceeds p db rb) in Hsave |].
  assert (Hexact : payment_type p = EMI → amount p = emi).
  { intros Hty. destruct (decide (amount p = emi)) as [| Hne]; [done |].
    rewrite (Payment_save_new_mismatch p db rb) in Hsave; try done.
    rewrite Hemi. congruence. }
  destruct (Payment_save_new_applied p db rb emi te) as (l' & Happlied & Hl');
    try done.
  rewrite Happlied in Hsave. injection Hsave as <- <-.
  by repeat split.
Qed.

(** A new payment writes the loan it returns, and nothing else. *)
Lemma Payment_save_new_stores p db p' db' :
  Payment_save_new p db = Ok (p', db') → db' = db_save_loan (loan p') db.
Proof.
  unfold Payment_save_new. intros Hsave.
  destruct (negb _); [discriminate |].
  apply bind_Ok in Hsave as (rb & _ & Hsave).
  destruct (_ <? _); [discriminate |].
  apply bind_Ok in Hsave as (loan2 & _ & Hsave).
  apply bind_Ok in Hsave as (loan3 & _ & Hsave).
  rewrite Loan_save_skipping in Hsave.
  apply bind_Ok in Hsave as ([loan4 db1] & Hsave & Hret).
  apply bind_Ok in Hsave as (l4 & _ & Hsave).
  injection Hsave as <- <-. by injection Hret as <- <-.
Qed.

(** Neither division of the ledger can be reached with a zero divisor. *)
Lemma calculate_loan_values_divides_safely l :
  calculate_loan_values l ≠ Raise ZeroDivisionError.
Proof.
  destruct (calculate_loan_values_total l) as [l' ->]. discriminate.
Qed.

Lemma count_emis_paid_divides_safely (ty : PaymentType) (amt : Z) l :
  count_emis_paid ty amt l ≠ Raise ZeroDivisionError.
Proof.
  unfold count_emis_paid, decimal_floordiv.
  destruct ty.
  - destruct (decimal_ne _ _); [discriminate |].
    by destruct (total_emis l).
  - destruct (monthly_emi l) as [emi |]; [| discriminate].
    cbn [not_none mbind result_bind].
    destruct (Z.ltb_spec 0 emi); [| discriminate].
    destruct (Z.eqb_spec emi 0); [lia |].
    by destruct (total_emis l).
Qed.

Lemma Payment_save_new_divides_safely p db :
  Payment_save_new p db ≠ Raise ZeroDivisionError.
Proof.
  unfold Payment_save_new. intros Hraise.
  destruct (negb _); [discriminate |].
  apply bind_Raise in Hraise as [Hraise | (rb & _ & Hraise)];
    [by destruct (remaining_balance _) |].
  destruct (_ <? _); [discriminate |].
  apply bind_Raise in Hraise as [Hraise | (loan2 & _ & Hraise)];
    [by apply count_emis_paid_divides_safely in Hraise |].
  apply bind_Raise in Hraise as [Hraise | (loan3 & _ & Hraise)].
  { unfold check_completed in Hraise.
    destruct (remaining_balance loan2); [| discriminate].
    cbn [not_none mbind result_bind] in Hraise.
    destruct (_ <=? _); [| discriminate]. by destruct (total_emis _). }
  rewrite Loan_save_skipping in Hraise.
  apply bind_Raise in Hraise as [Hraise | ([loan4 db1] & Hsave & Hraise)];
    [| discriminate].
  apply bind_Raise in Hraise as [Hraise | (? & _ & Hraise)]; [| discriminate].
  by apply calculate_loan_values_divides_safely in Hraise.
Qed.


(** Reading the loan back after the payment row is written. *)
Lemma saved_loan_lookup l p db :
  loans (db_save_payment p (db_save_loan l db)) !! loan_id l = Some l.
Proof.
  unfold db_save_payment, db_save_loan. cbn [loans].
  apply lookup_insert_eq.
Qed.

Lemma refresh_after_payment l p db :
  refresh_from_db l (db_save_payment p (db_save_loan l db)) = Ok l.
Proof. unfold refresh_from_db. by rewrite saved_loan_lookup. Qed.


End Payments.

(** ** Requests, end to end *)

Section Requests.

Implicit Types (l : Loan) (p : Payment) (db : DB) (data : PaymentData).

(** A request that passes the serializer names a stored loan and an amount
    of at least 0.01; the validated data are the data received. *)
Lemma PaymentCreateSerializer_is_valid_Ok data db v :
  PaymentCreateSerializer_is_valid data db = Ok v →
  v = data ∧ 1 <= data_amount data ∧
  ∃ l, loans db !! data_loan_id data = Some l ∧ loan_status l = ACTIVE.
Proof.
  unfold PaymentCreateSerializer_is_valid, PaymentCreateSerializer_fields.
  destruct (Z.ltb_spec (data_amount data) 1); [discriminate |].
  cbn [mbind result_bind]. unfold PaymentCreateSerializer_validate.
  destruct (loans db !! data_loan_id data) as [l |]; [| discriminate].
  destruct (decide (loan_status l = ACTIVE)) as [Hst | Hst];
    [rewrite bool_decide_eq_true_2 by done
    | rewrite bool_decide_eq_false_2 by done; discriminate].
  cbn [negb].
  destruct (remaining_balance l) as [rb |]; [| discriminate].
  destruct (rb <=? 0); [discriminate |].
  destruct (rb <? data_amount data); [discriminate |].
  intros Hvalid. assert (v = data) as ->.
  { destruct (data_payment_type data); [| by injection Hvalid].
    apply bind_Ok in Hvalid as (te & _ & Hvalid).
    destruct (te <=? emis_paid l); [discriminate | by injection Hvalid]. }
  eauto.
Qed.


End Requests.

(** ** Every stored loan is well formed *)

Section Invariant.

Implicit Types (l : Loan) (p : Payment) (db : DB).

(** A loan that [Loan.save] creates and validates is well formed: its
    derived fields are set and none of its [period * 12] EMIs is paid. *)
Lemma created_loan_well_formed (uuid4 : UUID) (cust : string) (P N R : Z) db l db' :
  Loan_save false (Loan_init uuid4 cust P N R) db = Ok (l, db') → well_formed l.
Proof.
  intros Hsave. apply Loan_save_validating in Hsave as (Hcalc & Hclean & _).
  apply Loan_clean_ok in Hclean as (_ & HN & _).
  unfold calculate_loan_values, Loan_init in Hcalc.
  cbn [total_amount total_interest] in Hcalc.
  apply bind_Ok in Hcalc as (emi & _ & Hcalc). injection Hcalc as <-.
  cbn [loan_period_years] in HN.
  split; [by repeat split |].
  unfold installments_in_range. cbn [total_emis emis_paid loan_period_years]. lia.
Qed.

(** A new payment of at least 0.01 keeps a loan well formed. *)
Lemma paid_loan_well_formed p db p' db' :
  well_formed (loan p) → 1 <= amount p →
  Payment_save_new p db = Ok (p', db') → well_formed (loan p').
Proof.
  intros [Hset Hrange] Hamt Hsave.
  destruct (Payment_save_new_Ok p db p' db' Hset Hsave)
    as (rb & emi & te & _ & Hrb & Hemi & Hte & _ & _ & _ & _ & Hl').
  unfold installments_in_range in Hrange. rewrite Hte in Hrange.
  rewrite Hl'. split.
  - destruct Hset as (Hti & Hta & Hmi & _ & Hes). by repeat split.
  - unfold installments_in_range.
    cbn [total_emis emis_paid set_emis_paid set_remaining_balance
         set_loan_status set_amount_paid].
    rewrite Hte.
    destruct (rb - amount p <=? 1); [lia |].
    destruct (payment_type p); [lia |].
    destruct (Z.ltb_spec 0 emi); [| lia].
    pose proof (Z.quot_pos (amount p) emi ltac:(lia) ltac:(lia)). lia.
Qed.

(** [lend_loan] keeps the stored loans well formed. *)
Lemma lend_loan_keeps_well_formed (uuid4 : UUID) (data : LoanData) db :
  map_Forall (λ _ l, well_formed l) (loans db) →
  map_Forall (λ _ l, well_formed l) (loans (snd (lend_loan uuid4 data db))).
Proof.
  intros Hdb.
  destruct (lend_loan_stores uuid4 data db) as [-> | (l & Hsave & ->)]; [done |].
  cbn [snd db_save_loan loans]. apply map_Forall_insert_2; [| done].
  by eapply created_loan_well_formed.
Qed.

(** [make_payment] keeps the stored loans well formed, whatever primary key
    the payment instance holds. *)
Lemma make_payment_keeps_well_formed (pk : option UUID) (data : PaymentData) db :
  map_Forall (λ _ l, well_formed l) (loans db) →
  map_Forall (λ _ l, well_formed l) (loans (snd (make_payment pk data db))).
Proof.
  intros Hdb. unfold make_payment.
  destruct (PaymentCreateSerializer_is_valid data db) as [v | e] eqn:Hvalid;
    [| done].
  apply PaymentCreateSerializer_is_valid_Ok in Hvalid as (-> & Hamt & l & Hl & _).
  rewrite Hl. unfold Payment_save. cbn [Payment_init payment_id].
  destruct pk as [pk |].
  - destruct (refresh_from_db _ _); done.
  - destruct (Payment_save_new _ db) as [[p' db1] | e] eqn:Hsave; [| done].
    cbn [mbind result_bind].
    assert (Hok : well_formed (loan p')).
    { eapply paid_loan_well_formed; [| | exact Hsave]; [| done].
      exact (Hdb _ _ Hl). }
    apply Payment_save_new_stores in Hsave as ->.
    assert (Hloans : map_Forall (λ _ l, well_formed l)
                       (loans (db_save_payment p' (db_save_loan (loan p') db)))).
    { cbn [db_save_payment db_save_loan loans].
      by apply map_Forall_insert_2. }
    by destruct (refresh_from_db _ _).
Qed.

Lemma serve_keeps_well_formed (reqs : list Request) db :
  map_Forall (λ _ l, well_formed l) (loans db) →
  map_Forall (λ _ l, well_formed l) (loans (serve reqs db)).
Proof.
  revert db. induction reqs as [| req reqs IH]; intros db Hdb; [done |].
  cbn [serve fold_left]. apply IH.
  destruct req as [uuid4 data | pk data]; cbn [handle].
  - by apply lend_loan_keeps_well_formed.
  - by apply make_payment_keeps_well_formed.
Qed.

(** C9.  Whatever requests are served from a database without loans, every
    stored loan has 0 <= installments_paid <= total_installments: loan
    creation, the EMI increment, the lump-sum increment and the forcing at
    completion all keep the bounds. *)
Theorem installments_paid_in_range (cs : gset string) (reqs : list Request)
    (id : UUID) l :
  loans (serve reqs (initial_db cs)) !! id = Some l →
  installments_in_range l.
Proof.
  intros Hl.
  assert (Hdb : map_Forall (λ _ l, well_formed l)
                  (loans (serve reqs (initial_db cs)))).
  { apply serve_keeps_well_formed. cbn [initial_db loans].
    apply map_Forall_empty. }
  by destruct (Hdb _ _ Hl).
Qed.

(** The loan of 100.00 after an EMI and a lump sum were recorded. *)
Lemma installments_paid_in_range_witness :
  installments_in_range
    (mkLoan 1%N "C001" 10000 1 0 (Some 0) (Some 10000) (Some 833) 0
       (Some 10000) (Some 12) 0 ACTIVE).
Proof.
  apply (installments_paid_in_range {["C001"%string]}
           [LendLoan 1%N (mkLoanData "C001" 10000 1 0);
            MakePayment (Some 11%N) (mkPaymentData 1%N EMI 833);
            MakePayment (Some 12%N) (mkPaymentData 1%N LUMP_SUM 5000)] 1%N).
  vm_compute. reflexivity.
Defined.

End Invariant.

(** ** The ledger of every stored loan is consistent *)

Section Consistency.

Implicit Types (l : Loan) (p : Payment) (db : DB).

(** A database is sound when each stored loan is well formed, has a
    consistent ledger and is stored under its own id. *)
Lemma created_loan_consistent (uuid4 : UUID) (cust : string) (P N R : Z) db l db' :
  Loan_save false (Loan_init uuid4 cust P N R) db = Ok (l, db') →
  ledger_consistent l ∧ loan_id l = uuid4 ∧ customer l = cust.
Proof.
  intros Hsave. apply Loan_save_validating in Hsave as (Hcalc & Hclean & _).
  apply Loan_clean_ok in Hclean as (HP & HN & HR).
  unfold calculate_loan_values, Loan_init in Hcalc.
  cbn [total_amount total_interest] in Hcalc.
  apply bind_Ok in Hcalc as (emi & _ & Hcalc). injection Hcalc as <-.
  cbn [principal_amount loan_period_years interest_rate] in HP, HN, HR.
  split; [| done].
  unfold ledger_consistent.
  cbn [remaining_balance total_amount amount_paid loan_status
       principal_amount loan_period_years interest_rate].
  rewrite quantize_half_up_cents.
  pose proof (quantize_half_up_nonneg (P * N * R) 10000 ltac:(nia) ltac:(lia)).
  lia.
Qed.

Lemma paid_loan_consistent p db p' db' :
  derived_set (loan p) → ledger_consistent (loan p) → 1 <= amount p →
  Payment_save_new p db = Ok (p', db') →
  ledger_consistent (loan p') ∧ loan_id (loan p') = loan_id (loan p).
Proof.
  intros Hset Hcons Hamt Hsave.
  destruct (Payment_save_new_Ok p db p' db' Hset Hsave)
    as (rb & emi & te & Hst & Hrb & Hemi & Hte & Hle & _ & _ & _ & Hl').
  unfold ledger_consistent in Hcons. rewrite Hrb, Hst in Hcons.
  destruct (total_amount (loan p)) as [ta |] eqn:Hta; [| done].
  rewrite Hl'. split; [| done].
  unfold ledger_consistent.
  cbn [remaining_balance total_amount amount_paid loan_status total_emis
       emis_paid set_emis_paid set_remaining_balance set_loan_status
       set_amount_paid].
  rewrite Hta, Hte.
  destruct (Z.leb_spec (rb - amount p) 1).
  - split; [lia |]. split; [lia |]. split; [lia | done].
  - lia.
Qed.

Lemma db_save_loan_keyed l db : keyed_by_id db → keyed_by_id (db_save_loan l db).
Proof.
  intros Hdb id l'. unfold db_save_loan. cbn [loans].
  rewrite lookup_insert. case_decide as Hid.
  - by intros [= <-].
  - apply Hdb.
Qed.

Lemma lend_loan_keeps_consistent (uuid4 : UUID) (data : LoanData) db :
  map_Forall (λ _ l, ledger_consistent l) (loans db) ∧ keyed_by_id db →
  map_Forall (λ _ l, ledger_consistent l) (loans (snd (lend_loan uuid4 data db))) ∧
  keyed_by_id (snd (lend_loan uuid4 data db)).
Proof.
  intros [Hdb Hkeys].
  destruct (lend_loan_stores uuid4 data db) as [-> | (l & Hsave & ->)]; [done |].
  cbn [snd]. split; [| by apply db_save_loan_keyed].
  cbn [db_save_loan loans]. apply map_Forall_insert_2; [| done].
  by apply created_loan_consistent in Hsave as [? _].
Qed.

Lemma make_payment_keeps_consistent (pk : option UUID) (data : PaymentData) db :
  map_Forall (λ _ l, well_formed l) (loans db) →
  map_Forall (λ _ l, ledger_consistent l) (loans db) ∧ keyed_by_id db →
  map_Forall (λ _ l, ledger_consistent l) (loans (snd (make_payment pk data db))) ∧
  keyed_by_id (snd (make_payment pk data db)).
Proof.
  intros Hwf [Hdb Hkeys]. unfold make_payment.
  destruct (PaymentCreateSerializer_is_valid data db) as [v | e] eqn:Hvalid;
    [| done].
  apply PaymentCreateSerializer_is_valid_Ok in Hvalid as (-> & Hamt & l & Hl & _).
  rewrite Hl. unfold Payment_save. cbn [Payment_init payment_id].
  destruct pk as [pk |].
  - destruct (refresh_from_db _ _); done.
  - destruct (Payment_save_new _ db) as [[p' db1] | e] eqn:Hsave; [| done].
    cbn [mbind result_bind].
    assert (Hok : ledger_consistent (loan p')).
    { eapply paid_loan_consistent; [| | | exact Hsave]; [| | done].
      - exact (proj1 (Hwf _ _ Hl)).
      - exact (Hdb _ _ Hl). }
    apply Payment_save_new_stores in Hsave as ->.
    assert (Hnext :
      map_Forall (λ _ l, ledger_consistent l)
        (loans (db_save_payment p' (db_save_loan (loan p') db))) ∧
      keyed_by_id (db_save_payment p' (db_save_loan (loan p') db))).
    { split.
      - cbn [db_save_payment db_save_loan loans]. by apply map_Forall_insert_2.
      - apply (db_save_loan_keyed (loan p') db Hkeys). }
    by destruct (refresh_from_db _ _).
Qed.

Lemma serve_keeps_consistent (reqs : list Request) db :
  map_Forall (λ _ l, well_formed l) (loans db) →
  map_Forall (λ _ l, ledger_consistent l) (loans db) ∧ keyed_by_id db →
  map_Forall (λ _ l, ledger_consistent l) (loans (serve reqs db)) ∧
  keyed_by_id (serve reqs db).
Proof.
  revert db. induction reqs as [| req reqs IH]; intros db Hwf Hdb; [done |].
  cbn [serve fold_left]. destruct req as [uuid4 data | pk data]; cbn [handle].
  - apply IH; [by apply lend_loan_keeps_well_formed
              | by apply lend_loan_keeps_consistent].
  - apply IH; [by apply make_payment_keeps_well_formed
              | by apply make_payment_keeps_consistent].
Qed.

(** What holds of the loans of any database the views can produce. *)
Lemma served_loans_sound (cs : gset string) (reqs : list Request) :
  map_Forall (λ _ l, well_formed l) (loans (serve reqs (initial_db cs))) ∧
  map_Forall (λ _ l, ledger_consistent l) (loans (serve reqs (initial_db cs))) ∧
  keyed_by_id (serve reqs (initial_db cs)).
Proof.
  assert (Hwf : map_Forall (λ _ l, well_formed l) (loans (initial_db cs)))
    by apply map_Forall_empty.
  split; [by apply serve_keeps_well_formed |].
  apply serve_keeps_consistent; [done |]. split.
  - apply map_Forall_empty.
  - intros id l Hl. cbn [initial_db loans] in Hl. by rewrite lookup_empty in Hl.
Qed.

End Consistency.

(** ** Payments as the view saves them

    [Payment.objects.create] builds the instance and then saves it.  Building
    it draws its [payment_id], so [Payment.save] finds [self.pk] set, skips
    the block under [if not self.pk] and stores the row: the view is
    [make_payment (Some pk)]. *)

Section PaymentView.

Implicit Types (l : Loan) (p : Payment) (db : DB) (data : PaymentData).

(** The view writes a payment row and no loan. *)
Lemma recorded_payment_keeps_loans (pk : UUID) data db :
  loans (snd (make_payment (Some pk) data db)) = loans db.
Proof.
  unfold make_payment.
  destruct (PaymentCreateSerializer_is_valid data db) as [v | e]; [| done].
  destruct (loans db !! data_loan_id v); [| done].
  unfold Payment_save. cbn [Payment_init payment_id].
  by destruct (refresh_from_db _ _).
Qed.


(** A 201 answer, read backwards. *)
Lemma make_payment_Created (pk : UUID) data db p l' db' :
  keyed_by_id db →
  make_payment (Some pk) data db = (HTTP_201_CREATED (p, l'), db') →
  loans db !! data_loan_id data = Some l' ∧ loan_status l' = ACTIVE ∧
  1 <= data_amount data ∧
  p = Payment_init (Some pk) l' (data_payment_type data) (data_amount data) ∧
  db' = db_save_payment p db.
Proof.
  intros Hkeys. unfold make_payment.
  destruct (PaymentCreateSerializer_is_valid data db) as [v | e] eqn:Hvalid;
    [| by destruct e].
  apply PaymentCreateSerializer_is_valid_Ok in Hvalid as (-> & Hamt & l & Hl & Hst).
  rewrite Hl. unfold Payment_save. cbn [Payment_init payment_id].
  unfold refresh_from_db. cbn [Payment_init loan db_save_payment loans].
  rewrite (Hkeys _ _ Hl), Hl. intros [= <- <- <-]. done.
Qed.

(** The serializer raises validation errors and, on a loan without its
    number of EMIs, a [TypeError]; nothing else. *)
Lemma PaymentCreateSerializer_is_valid_raises data db e :
  PaymentCreateSerializer_is_valid data db = Raise e →
  e = TypeError ∨ ∃ msg, e = ValidationError msg.
Proof.
  unfold PaymentCreateSerializer_is_valid, PaymentCreateSerializer_fields.
  destruct (data_amount data <? 1); [intros [= <-]; eauto |].
  cbn [mbind result_bind]. unfold PaymentCreateSerializer_validate.
  destruct (loans db !! data_loan_id data) as [l |]; [| intros [= <-]; eauto].
  destruct (negb _); [intros [= <-]; eauto |].
  destruct (remaining_balance l) as [rb |]; [| intros [= <-]; eauto].
  destruct (rb <=? 0); [intros [= <-]; eauto |].
  destruct (rb <? data_amount data); [intros [= <-]; eauto |].
  destruct (data_payment_type data); [| discriminate].
  destruct (total_emis l) as [te |]; cbn [not_none mbind result_bind];
    [| intros [= <-]; eauto].
  destruct (te <=? emis_paid l); [intros [= <-]; eauto | discriminate].
Qed.



(** C3.  An EMI payment of 5.00 on the loan of 100.00, whose monthly EMI is
    8.33, is not rejected: the view answers 201 and stores the payment, with
    no EmiAmountMismatch.  The test that raises it, [count_emis_paid], is in
    the block of [Payment.save] under [if not self.pk], which a payment built
    by [objects.create] never enters. *)
Theorem emi_amount_is_not_checked :
  let l := mkLoan 1%N "C001" 10000 1 0 (Some 0) (Some 10000) (Some 833) 0
             (Some 10000) (Some 12) 0 ACTIVE in
  let p := mkPayment (Some 7%N) l EMI 500 0 in
  loans (one_loan 10000) !! 1%N = Some l ∧
  make_payment (Some 7%N) (mkPaymentData 1%N EMI 500) (one_loan 10000) =
  (HTTP_201_CREATED (p, l), db_save_payment p (one_loan 10000)) ∧
  Payment_save p (one_loan 10000) = Ok (p, db_save_payment p (one_loan 10000)) ∧
  count_emis_paid EMI 500 l =
  Raise (ValidationError (EmiAmountMismatch (Some 833))).
Proof.
  cbn zeta. split; [vm_compute; reflexivity |].
  split; [vm_compute; reflexivity |].
  split; vm_compute; reflexivity.
Qed.

(** C6.  A lump sum of 15000.00, three times the EMI of 5000.00, on the loan
    of 120000.00 is answered 201 and leaves installments_paid at 0, not at 3:
    the count of the installments covered, [count_emis_paid], is in the block
    of [Payment.save] that the payment never enters. *)
Theorem lump_sum_covers_no_installment :
  let l := mkLoan 1%N "C001" 10000000 2 1000 (Some 2000000) (Some 12000000)
             (Some 500000) 0 (Some 12000000) (Some 24) 0 ACTIVE in
  let p := mkPayment (Some 7%N) l LUMP_SUM 1500000 0 in
  loans scenario_loan !! 1%N = Some l ∧
  make_payment (Some 7%N) (mkPaymentData 1%N LUMP_SUM 1500000) scenario_loan =
  (HTTP_201_CREATED (p, l), db_save_payment p scenario_loan) ∧
  loans (db_save_payment p scenario_loan) !! 1%N = Some l ∧
  emis_paid l = 0 ∧
  count_emis_paid LUMP_SUM 1500000 l = Ok (set_emis_paid 3 l).
Proof.
  cbn zeta. split; [vm_compute; reflexivity |].
  split; [vm_compute; reflexivity |].
  split; [vm_compute; reflexivity |].
  split; vm_compute; reflexivity.
Qed.

(** C7.  A lump sum of 100.00, the whole balance of the loan of 100.00, is
    answered 201 and leaves the loan ACTIVE with a remaining balance of
    100.00 and no installment paid: the completion check, [check_completed],
    is in the block of [Payment.save] that the payment never enters.  Had the
    block run, the loan would be COMPLETED with balance 0.00 and 12 of 12
    installments paid. *)
Theorem full_lump_sum_leaves_loan_active :
  let l := mkLoan 1%N "C001" 10000 1 0 (Some 0) (Some 10000) (Some 833) 0
             (Some 10000) (Some 12) 0 ACTIVE in
  let p := mkPayment (Some 7%N) l LUMP_SUM 10000 0 in
  loans (one_loan 10000) !! 1%N = Some l ∧
  make_payment (Some 7%N) (mkPaymentData 1%N LUMP_SUM 10000) (one_loan 10000) =
  (HTTP_201_CREATED (p, l), db_save_payment p (one_loan 10000)) ∧
  loans (db_save_payment p (one_loan 10000)) !! 1%N = Some l ∧
  loan_status l = ACTIVE ∧ remaining_balance l = Some 10000 ∧ emis_paid l = 0 ∧
  check_completed (update_loan_amounts 10000 10000 l) =
  Ok (mkLoan 1%N "C001" 10000 1 0 (Some 0) (Some 10000) (Some 833) 10000
        (Some 0) (Some 12) 12 COMPLETED).
Proof.
  cbn zeta. split; [vm_compute; reflexivity |].
  split; [vm_compute; reflexivity |].
  split; [vm_compute; reflexivity |].
  split; [reflexivity |]. split; [reflexivity |]. split; [reflexivity |].
  vm_compute. reflexivity.
Qed.

(** C10.  No payment divides by zero: [Payment.save] never raises
    [ZeroDivisionError], on any instance and any database, because the
    quotient by the monthly EMI is taken only under [monthly_emi > 0].  On a
    stored loan whose monthly EMI is not positive the count of installments
    returns the loan as it is, and a payment request is answered without a
    division error and leaves the loan, and so its installments paid,
    unchanged. *)
Theorem lump_sum_division_is_guarded (pk : UUID) data db l (emi : Z) :
  loans db !! data_loan_id data = Some l → monthly_emi l = Some emi → emi <= 0 →
  (∀ p db0, Payment_save p db0 ≠ Raise ZeroDivisionError) ∧
  count_emis_paid LUMP_SUM (data_amount data) l = Ok l ∧
  fst (make_payment (Some pk) data db) ≠
    HTTP_500_INTERNAL_SERVER_ERROR ZeroDivisionError ∧
  loans (snd (make_payment (Some pk) data db)) !! data_loan_id data = Some l.
Proof.
  intros Hl Hemi Hle. split; [| split; [| split]].
  - intros p db0. unfold Payment_save. destruct (payment_id p); [discriminate |].
    intros Hraise.
    apply bind_Raise in Hraise as [Hraise | ([p1 db1] & _ & Hraise)];
      [| discriminate].
    by apply Payment_save_new_divides_safely in Hraise.
  - by apply count_emis_paid_lump_sum_unpriced with emi.
  - unfold make_payment.
    destruct (PaymentCreateSerializer_is_valid data db) as [v | e] eqn:Hvalid.
    + apply PaymentCreateSerializer_is_valid_Ok in Hvalid as (-> & _).
      rewrite Hl. unfold Payment_save. cbn [Payment_init payment_id].
      by destruct (refresh_from_db _ _).
    + by apply PaymentCreateSerializer_is_valid_raises in Hvalid
        as [-> | [msg ->]].
  - by rewrite recorded_payment_keeps_loans.
Qed.

(** A lump sum of 0.05 on the loan of 0.05, whose monthly EMI rounds to
    0.00. *)
Lemma lump_sum_division_is_guarded_witness :
  let l := mkLoan 1%N "C001" 5 1 0 (Some 0) (Some 5) (Some 0) 0 (Some 5)
             (Some 12) 0 ACTIVE in
  count_emis_paid LUMP_SUM 5 l = Ok l ∧
  loans (snd (make_payment (Some 7%N) (mkPaymentData 1%N LUMP_SUM 5) (one_loan 5)))
    !! 1%N = Some l.
Proof.
  cbn zeta.
  destruct (lump_sum_division_is_guarded 7%N (mkPaymentData 1%N LUMP_SUM 5)
              (one_loan 5)
              (mkLoan 1%N "C001" 5 1 0 (Some 0) (Some 5) (Some 0) 0 (Some 5)
                 (Some 12) 0 ACTIVE) 0) as (_ & Hcount & _ & Hloan).
  - vm_compute. reflexivity.
  - reflexivity.
  - lia.
  - split; [exact Hcount | exact Hloan].
Defined.













End PaymentView.

(** ** What the stored loans look like *)

Section StoredLoans.

Implicit Types (l : Loan) (p : Payment) (db : DB).

Variables (cs : gset string) (reqs : list Request).

(** No view ever stores a DEFAULTED loan: a stored loan is ACTIVE or
    COMPLETED. *)
Theorem stored_loan_never_defaulted (id : UUID) l :
  loans (serve reqs (initial_db cs)) !! id = Some l →
  loan_status l = ACTIVE ∨ loan_status l = COMPLETED.
Proof.
  intros Hl. destruct (served_loans_sound cs reqs) as (_ & Hcons & _).
  specialize (Hcons _ _ Hl). unfold ledger_consistent in Hcons.
  destruct (remaining_balance l), (total_amount l); try done.
  destruct (loan_status l); [by left | by right | by destruct Hcons].
Qed.

(** A stored ACTIVE loan satisfies amount_paid + remaining_balance =
    total_amount exactly: the cent that completion may drop is only ever
    missing from COMPLETED loans. *)
Theorem stored_active_loan_balanced (id : UUID) l :
  loans (serve reqs (initial_db cs)) !! id = Some l →
  loan_status l = ACTIVE → balanced l.
Proof.
  intros Hl Hst. destruct (served_loans_sound cs reqs) as (_ & Hcons & _).
  specialize (Hcons _ _ Hl). unfold ledger_consistent in Hcons.
  unfold balanced. rewrite Hst in Hcons.
  destruct (remaining_balance l), (total_amount l); try done.
  by destruct Hcons as (_ & ? & _).
Qed.

(** The amounts of a stored loan are never negative and never exceed its
    total: 0 <= remaining_balance <= total_amount and
    0 <= amount_paid <= total_amount. *)
Theorem stored_loan_amounts_bounded (id : UUID) l :
  loans (serve reqs (initial_db cs)) !! id = Some l →
  ∃ rb ta, remaining_balance l = Some rb ∧ total_amount l = Some ta ∧
           0 <= rb <= ta ∧ 0 <= amount_paid l <= ta.
Proof.
  intros Hl. destruct (served_loans_sound cs reqs) as (_ & Hcons & _).
  specialize (Hcons _ _ Hl). unfold ledger_consistent in Hcons.
  destruct (remaining_balance l) as [rb |], (total_amount l) as [ta |]; try done.
  exists rb, ta. split; [done |]. split; [done |].
  destruct (loan_status l); lia.
Qed.

(** On a stored loan [emis_remaining] is total_emis - emis_paid: the clamp
    [max(0, ..)] never acts, and emis_paid + emis_remaining = total_emis. *)
Theorem stored_loan_emis_remaining (id : UUID) l :
  loans (serve reqs (initial_db cs)) !! id = Some l →
  ∃ te r, total_emis l = Some te ∧ emis_remaining l = Ok r ∧
          0 <= r ∧ emis_paid l + r = te.
Proof.
  intros Hl. destruct (served_loans_sound cs reqs) as (Hwf & _ & _).
  destruct (Hwf _ _ Hl) as [_ Hrange]. unfold installments_in_range in Hrange.
  destruct (total_emis l) as [te |] eqn:Hte; [| done].
  exists te, (te - emis_paid l). split; [done |].
  unfold emis_remaining. rewrite Hte. cbn [not_none mbind result_bind].
  rewrite Z.max_r by lia. split; [done | lia].
Qed.

(** Every loan is stored under its own [loan_id], so a loan read by id and
    refreshed by its primary key is the same row. *)
Theorem stored_loan_keyed_by_id (id : UUID) l :
  loans (serve reqs (initial_db cs)) !! id = Some l →
  loan_id l = id ∧ refresh_from_db l (serve reqs (initial_db cs)) = Ok l.
Proof.
  intros Hl. destruct (served_loans_sound cs reqs) as (_ & _ & Hkeys).
  pose proof (Hkeys _ _ Hl) as Hid. split; [done |].
  unfold refresh_from_db. by rewrite Hid, Hl.
Qed.

(** [make_payment] never answers 404: a loan the serializer found is still
    there when the view reads it and when it refreshes it. *)
Theorem make_payment_never_404 (pk : option UUID) (data : PaymentData) :
  fst (make_payment pk data (serve reqs (initial_db cs))) ≠ HTTP_404_NOT_FOUND.
Proof.
  destruct (served_loans_sound cs reqs) as (_ & _ & Hkeys).
  set (db := serve reqs (initial_db cs)) in *. unfold make_payment.
  destruct (PaymentCreateSerializer_is_valid data db) as [v | e] eqn:Hvalid;
    [| by destruct e].
  apply PaymentCreateSerializer_is_valid_Ok in Hvalid as (-> & Hamt & l & Hl & _).
  rewrite Hl. unfold Payment_save. cbn [Payment_init payment_id].
  destruct pk as [pk |].
  - unfold refresh_from_db. cbn [Payment_init loan db_save_payment loans].
    by rewrite (Hkeys _ _ Hl), Hl.
  - destruct (Payment_save_new _ db) as [[p' db1] | e] eqn:Hsave; [| done].
    cbn [mbind result_bind].
    apply Payment_save_new_stores in Hsave as ->.
    by rewrite refresh_after_payment.
Qed.

End StoredLoans.

(** Two loans of one customer, each with one payment recorded. *)
Lemma stored_loan_never_defaulted_witness :
  loan_status
    (mkLoan 1%N "C001" 10000 1 0 (Some 0) (Some 10000) (Some 833) 0
       (Some 10000) (Some 12) 0 ACTIVE) = ACTIVE ∨
  loan_status
    (mkLoan 1%N "C001" 10000 1 0 (Some 0) (Some 10000) (Some 833) 0
       (Some 10000) (Some 12) 0 ACTIVE) = COMPLETED.
Proof.
  apply (stored_loan_never_defaulted {["C001"%string]}
           [LendLoan 1%N (mkLoanData "C001" 10000 1 0);
            LendLoan 2%N (mkLoanData "C001" 12 1 0);
            MakePayment (Some 11%N) (mkPaymentData 2%N LUMP_SUM 11);
            MakePayment (Some 12%N) (mkPaymentData 1%N EMI 833)] 1%N).
  vm_compute. reflexivity.
Defined.

Lemma stored_active_loan_balanced_witness :
  balanced
    (mkLoan 1%N "C001" 10000 1 0 (Some 0) (Some 10000) (Some 833) 0
       (Some 10000) (Some 12) 0 ACTIVE).
Proof.
  apply (stored_active_loan_balanced {["C001"%string]}
           [LendLoan 1%N (mkLoanData "C001" 10000 1 0);
            LendLoan 2%N (mkLoanData "C001" 12 1 0);
            MakePayment (Some 11%N) (mkPaymentData 2%N LUMP_SUM 11);
            MakePayment (Some 12%N) (mkPaymentData 1%N EMI 833)] 1%N).
  - vm_compute. reflexivity.
  - reflexivity.
Defined.

Lemma stored_loan_amounts_bounded_witness :
  ∃ rb ta,
    Some 10000 = Some rb ∧ Some 10000 = Some ta ∧ 0 <= rb <= ta ∧ 0 <= 0 <= ta.
Proof.
  apply (stored_loan_amounts_bounded {["C001"%string]}
           [LendLoan 1%N (mkLoanData "C001" 10000 1 0);
            LendLoan 2%N (mkLoanData "C001" 12 1 0);
            MakePayment (Some 11%N) (mkPaymentData 2%N LUMP_SUM 11);
            MakePayment (Some 12%N) (mkPaymentData 1%N EMI 833)] 1%N
           (mkLoan 1%N "C001" 10000 1 0 (Some 0) (Some 10000) (Some 833) 0
       (Some 10000) (Some 12) 0 ACTIVE)).
  vm_compute. reflexivity.
Defined.

Lemma stored_loan_emis_remaining_witness :
  ∃ te r, Some 12 = Some te ∧
          emis_remaining
            (mkLoan 1%N "C001" 10000 1 0 (Some 0) (Some 10000) (Some 833) 0
       (Some 10000) (Some 12) 0 ACTIVE) = Ok r ∧
          0 <= r ∧ 0 + r = te.
Proof.
  apply (stored_loan_emis_remaining {["C001"%string]}
           [LendLoan 1%N (mkLoanData "C001" 10000 1 0);
            LendLoan 2%N (mkLoanData "C001" 12 1 0);
            MakePayment (Some 11%N) (mkPaymentData 2%N LUMP_SUM 11);
            MakePayment (Some 12%N) (mkPaymentData 1%N EMI 833)] 1%N
           (mkLoan 1%N "C001" 10000 1 0 (Some 0) (Some 10000) (Some 833) 0
       (Some 10000) (Some 12) 0 ACTIVE)).
  vm_compute. reflexivity.
Defined.

Lemma stored_loan_keyed_by_id_witness :
  loan_id
    (mkLoan 1%N "C001" 10000 1 0 (Some 0) (Some 10000) (Some 833) 0
       (Some 10000) (Some 12) 0 ACTIVE) = 1%N.
Proof.
  apply (stored_loan_keyed_by_id {["C001"%string]}
           [LendLoan 1%N (mkLoanData "C001" 10000 1 0);
            LendLoan 2%N (mkLoanData "C001" 12 1 0);
            MakePayment (Some 11%N) (mkPaymentData 2%N LUMP_SUM 11);
            MakePayment (Some 12%N) (mkPaymentData 1%N EMI 833)] 1%N
           (mkLoan 1%N "C001" 10000 1 0 (Some 0) (Some 10000) (Some 833) 0
       (Some 10000) (Some 12) 0 ACTIVE)).
  vm_compute. reflexivity.
Defined.

(** ** Edge cases of the views and of the models *)

Section Edges.

Implicit Types (l : Loan) (p : Payment) (db : DB).

(** [lend_loan] for a customer that does not exist: 400 from
    [validate_customer_id], and nothing is stored. *)
Theorem lend_loan_unknown_customer (uuid4 : UUID) (data : LoanData) db :
  data_customer_id data ∉ customers db →
  lend_loan uuid4 data db = (HTTP_400_BAD_REQUEST CustomerDoesNotExist, db).
Proof.
  intros Hcust. unfold lend_loan, LoanCreateSerializer_is_valid,
    LoanCreateSerializer_validate_customer_id.
  by rewrite bool_decide_eq_false_2.
Qed.

Lemma lend_loan_unknown_customer_witness :
  lend_loan 1%N (mkLoanData "C002" 10000 1 0) one_customer =
  (HTTP_400_BAD_REQUEST CustomerDoesNotExist, one_customer).
Proof.
  apply (lend_loan_unknown_customer 1%N (mkLoanData "C002" 10000 1 0) one_customer).
  vm_compute. intros Hin. discriminate Hin.
Defined.

(** [lend_loan] never answers 404: its [except Customer.DoesNotExist] cannot
    be reached once the serializer has checked the customer. *)
Theorem lend_loan_never_404 (uuid4 : UUID) (data : LoanData) db :
  fst (lend_loan uuid4 data db) ≠ HTTP_404_NOT_FOUND.
Proof.
  unfold lend_loan, LoanCreateSerializer_is_valid,
    LoanCreateSerializer_validate_customer_id.
  destruct (bool_decide (data_customer_id data ∈ customers db)) eqn:Hcust;
    cbn [mbind result_bind invalid_response fst]; [| done].
  rewrite Hcust.
  destruct (Loan_save false _ db) as [[l1 db1] | e]; [| done].
  by destruct (refresh_from_db l1 db1).
Qed.

(** [lend_loan] answers 201 only when the customer exists, none of
    principal, period and rate is negative, and principal, rate and total
    amount fit their columns; the loan is then stored under the id drawn for
    it, ACTIVE, with nothing paid and its whole total amount remaining. *)
Theorem lend_loan_created_only_if (uuid4 : UUID) (data : LoanData) db l db' :
  lend_loan uuid4 data db = (HTTP_201_CREATED l, db') →
  data_customer_id data ∈ customers db ∧
  0 <= data_principal_amount data < 10 ^ 12 ∧
  0 <= data_loan_period_years data ∧
  0 <= data_interest_rate data < 10 ^ 5 ∧
  db' = db_save_loan l db ∧ loan_id l = uuid4 ∧ loan_status l = ACTIVE ∧
  amount_paid l = 0 ∧ emis_paid l = 0 ∧
  remaining_balance l = total_amount l ∧
  ∃ ta, total_amount l = Some ta ∧ 0 <= ta < 10 ^ 12.
Proof.
  intros Hlend. unfold lend_loan in Hlend.
  destruct (LoanCreateSerializer_is_valid data db) as [v | e] eqn:Hvalid;
    [| by destruct e].
  assert (v = data) as ->.
  { unfold LoanCreateSerializer_is_valid in Hvalid.
    apply bind_Ok in Hvalid as (? & _ & Hvalid). by injection Hvalid. }
  destruct (bool_decide (data_customer_id data ∈ customers db)) eqn:Hcust;
    [| done].
  apply bool_decide_eq_true in Hcust.
  destruct (Loan_save false _ db) as [[l1 db1] | e] eqn:Hsave; [| done].
  apply Loan_save_validated in Hsave as (Hcalc & Hclean & ->).
  rewrite refresh_after_save in Hlend. injection Hlend as <- <-.
  apply Loan_full_clean_ok in Hclean as [Hfields Hclean].
  apply Loan_clean_ok in Hclean as (HP & HN & HR).
  apply Loan_clean_fields_ok in Hfields as (FP & FR & _ & FA & _).
  unfold calculate_loan_values, Loan_init in Hcalc.
  cbn [total_amount total_interest] in Hcalc.
  apply bind_Ok in Hcalc as (emi & _ & Hcalc). injection Hcalc as <-.
  cbn [principal_amount loan_period_years interest_rate total_amount
       nullable_fits] in HP, HN, HR, FP, FR, FA.
  rewrite decimal_fits_spec in FP, FR, FA.
  rewrite quantize_half_up_cents in FA.
  pose proof (quantize_half_up_nonneg
                (data_principal_amount data * data_loan_period_years data *
                 data_interest_rate data) 10000 ltac:(nia) ltac:(lia)) as HI.
  cbn [loan_id loan_status amount_paid emis_paid remaining_balance total_amount].
  rewrite quantize_half_up_cents.
  split; [done |]. split; [lia |]. split; [lia |]. split; [lia |].
  split; [done |]. split; [done |]. split; [done |]. split; [done |].
  split; [done |]. split; [done |].
  eexists. split; [reflexivity |]. lia.
Qed.

Lemma lend_loan_created_only_if_witness :
  "C001"%string ∈ customers one_customer ∧ 0 <= 10000 < 10 ^ 12.
Proof.
  destruct (lend_loan_created_only_if 1%N (mkLoanData "C001" 10000 1 0)
              one_customer
              (mkLoan 1%N "C001" 10000 1 0 (Some 0) (Some 10000) (Some 833) 0
       (Some 10000) (Some 12) 0 ACTIVE)
              (one_loan 10000)) as (Hcust & HP & _).
  - vm_compute. reflexivity.
  - split; [exact Hcust | exact HP].
Defined.



(** The twelve-per-year schedule and the total: when the period is positive
    the EMIs of a created loan add up to its total amount within half a cent
    per installment, 2 * |total_amount - monthly_emi * total_emis| <=
    total_emis. *)
Theorem emi_schedule_within_rounding (uuid4 : UUID) (cust : string) (P N R : Z)
    db l db' :
  Loan_save false (Loan_init uuid4 cust P N R) db = Ok (l, db') → 0 < N →
  ∃ ta emi, total_amount l = Some ta ∧ monthly_emi l = Some emi ∧
            total_emis l = Some (N * 12) ∧
            2 * Z.abs (ta - emi * (N * 12)) <= N * 12.
Proof.
  intros Hsave HN. apply Loan_save_validating in Hsave as (Hcalc & Hclean & _).
  apply Loan_clean_ok in Hclean as (HP & _ & HR).
  rewrite calculate_loan_values_init in Hcalc by done.
  cbn zeta in Hcalc. injection Hcalc as <-.
  cbn [principal_amount interest_rate] in HP, HR.
  eexists _, _. split; [reflexivity |]. split; [reflexivity |].
  split; [reflexivity |].
  pose proof (quantize_half_up_nonneg (P * N * R) 10000 ltac:(nia) ltac:(lia)).
  pose proof (quantize_half_up_rounds
                (P + quantize_half_up (P * N * R) 10000) (N * 12)
                ltac:(lia) ltac:(lia)) as Hround.
  unfold is_half_up_rounding in Hround. nia.
Qed.

Lemma emi_schedule_within_rounding_witness :
  ∃ ta emi,
    Some 10000 = Some ta ∧ Some 833 = Some emi ∧ Some 12 = Some (1 * 12) ∧
    2 * Z.abs (ta - emi * (1 * 12)) <= 1 * 12.
Proof.
  apply (emi_schedule_within_rounding 1%N "C001" 10000 1 0 one_customer
           (mkLoan 1%N "C001" 10000 1 0 (Some 0) (Some 10000) (Some 833) 0
              (Some 10000) (Some 12) 0 ACTIVE)
           (db_save_loan
              (mkLoan 1%N "C001" 10000 1 0 (Some 0) (Some 10000) (Some 833) 0
                 (Some 10000) (Some 12) 0 ACTIVE) one_customer)).
  - reflexivity.
  - lia.
Defined.

End Edges.

(** ** Further answers of the views, and [Payment.clean] *)

Section Answers.

Implicit Types (l : Loan) (p : Payment) (db : DB) (data : PaymentData).



(** A payment instance that already holds a primary key is only stored:
    [Payment.save] skips its whole "new payment" block, so no loan changes,
    whatever the type and the amount of the payment. *)
Theorem make_payment_with_pk_keeps_loans (pk : UUID) data db :
  loans (snd (make_payment (Some pk) data db)) = loans db.
Proof.
  unfold make_payment.
  destruct (PaymentCreateSerializer_is_valid data db) as [v | e]; [| done].
  destruct (loans db !! data_loan_id v); [| done].
  unfold Payment_save. cbn [Payment_init payment_id].
  by destruct (refresh_from_db _ _).
Qed.

(** When [Payment.clean] returns normally. *)
Lemma Payment_clean_None p :
  Payment_clean p = None ↔
  loan_status (loan p) = ACTIVE ∧
  (amount p = 0 ∨
   0 < amount p ∧ ∃ rb, remaining_balance (loan p) = Some rb ∧ amount p <= rb).
Proof.
  unfold Payment_clean, truthy.
  destruct (Z.eqb_spec (amount p) 0) as [Hz | Hnz]; cbn [negb andb].
  - destruct (decide (loan_status (loan p) = ACTIVE)) as [Hst | Hst];
      [rewrite bool_decide_eq_true_2 by done
      | rewrite bool_decide_eq_false_2 by done]; cbn [negb].
    + split; [by intros _; split; [| left] | done].
    + split; [done | by intros [? _]].
  - destruct (Z.leb_spec (amount p) 0).
    { split; [done |]. intros (_ & [? | [? _]]); lia. }
    destruct (decide (loan_status (loan p) = ACTIVE)) as [Hst | Hst];
      [rewrite bool_decide_eq_true_2 by done
      | rewrite bool_decide_eq_false_2 by done]; cbn [negb];
      [| split; [done | by intros [? _]]].
    destruct (remaining_balance (loan p)) as [rb |].
    + destruct (Z.ltb_spec rb (amount p)).
      * split; [done |]. intros (_ & [? | (_ & rb' & [= <-] & ?)]); lia.
      * split; [| done]. intros _. split; [done |]. right. split; [lia |].
        by exists rb.
    + split; [done |]. intros (_ & [? | (_ & rb' & ? & _)]); [lia | done].
Qed.

(** [Payment.clean] returns normally exactly when the loan is ACTIVE and the
    amount is zero, or positive and within the remaining balance: like
    [Loan.clean] it lets a zero amount through, without looking at the
    balance. *)
Theorem Payment_clean_accepts p :
  Payment_clean p = None ↔
  loan_status (loan p) = ACTIVE ∧
  (amount p = 0 ∨
   0 < amount p ∧ ∃ rb, remaining_balance (loan p) = Some rb ∧ amount p <= rb).
Proof. apply Payment_clean_None. Qed.

(** A loan request is all or nothing: 201 and the loan stored under the id
    drawn for it, or nothing stored. *)
Theorem lend_loan_all_or_nothing (uuid4 : UUID) (data : LoanData) db :
  (∃ l, lend_loan uuid4 data db = (HTTP_201_CREATED l, db_save_loan l db) ∧
        loan_id l = uuid4 ∧ customer l = data_customer_id data) ∨
  ((∀ l, fst (lend_loan uuid4 data db) ≠ HTTP_201_CREATED l) ∧
   snd (lend_loan uuid4 data db) = db).
Proof.
  unfold lend_loan.
  destruct (LoanCreateSerializer_is_valid data db) as [v | e] eqn:Hvalid;
    [| right; by destruct e].
  assert (v = data) as ->.
  { unfold LoanCreateSerializer_is_valid in Hvalid.
    apply bind_Ok in Hvalid as (? & _ & Hvalid). by injection Hvalid. }
  destruct (bool_decide _); [| by right].
  destruct (Loan_save false _ db) as [[l1 db1] | e] eqn:Hsave; [| by right].
  pose proof (Loan_save_validating _ _ _ _ Hsave) as (_ & _ & ->).
  apply created_loan_consistent in Hsave as (_ & Hid & Hcust).
  rewrite refresh_after_save. left. by exists l1.
Qed.

(** What the view records for a payment it accepts: a row with the key
    drawn for it, the type and the amount of the request and a
    balance_after_payment of 0.00, the default of the column, added after
    the rows already stored; loans and customers stay as they were. *)
Theorem accepted_payment_is_recorded (cs : gset string) (reqs : list Request)
    (pk : UUID) data p l' db' :
  make_payment (Some pk) data (serve reqs (initial_db cs)) =
  (HTTP_201_CREATED (p, l'), db') →
  p = mkPayment (Some pk) l' (data_payment_type data) (data_amount data) 0 ∧
  payments db' = payments (serve reqs (initial_db cs)) ++ [p] ∧
  loans db' = loans (serve reqs (initial_db cs)) ∧
  customers db' = customers (serve reqs (initial_db cs)).
Proof.
  intros Hpay. destruct (served_loans_sound cs reqs) as (_ & _ & Hkeys).
  apply make_payment_Created in Hpay as (_ & _ & _ & -> & ->); [| done].
  done.
Qed.

Lemma accepted_payment_is_recorded_witness :
  let l := mkLoan 1%N "C001" 10000 1 0 (Some 0) (Some 10000) (Some 833) 0
             (Some 10000) (Some 12) 0 ACTIVE in
  mkPayment (Some 7%N) l EMI 833 0 = mkPayment (Some 7%N) l EMI 833 0 ∧
  payments (db_save_payment (mkPayment (Some 7%N) l EMI 833 0) (one_loan 10000)) =
  payments (serve [LendLoan 1%N (mkLoanData "C001" 10000 1 0)]
              (initial_db {["C001"%string]})) ++
  [mkPayment (Some 7%N) l EMI 833 0].
Proof.
  cbn zeta.
  destruct (accepted_payment_is_recorded {["C001"%string]}
              [LendLoan 1%N (mkLoanData "C001" 10000 1 0)] 7%N
              (mkPaymentData 1%N EMI 833)
              (mkPayment (Some 7%N)
                 (mkLoan 1%N "C001" 10000 1 0 (Some 0) (Some 10000) (Some 833) 0
                    (Some 10000) (Some 12) 0 ACTIVE) EMI 833 0)
              (mkLoan 1%N "C001" 10000 1 0 (Some 0) (Some 10000) (Some 833) 0
                 (Some 10000) (Some 12) 0 ACTIVE)
              (db_save_payment
                 (mkPayment (Some 7%N)
                    (mkLoan 1%N "C001" 10000 1 0 (Some 0) (Some 10000) (Some 833) 0
                       (Some 10000) (Some 12) 0 ACTIVE) EMI 833 0)
                 (one_loan 10000))) as (Hp & Hpayments & _).
  - vm_compute. reflexivity.
  - split; [exact Hp | exact Hpayments].
Defined.

End Answers.

(** ** The account overview *)

Section AccountOverview.

Implicit Types (l : Loan) (ls : list Loan) (db : DB).

Lemma decimal_sum_raised (xs : list (option Z)) (e : Exception) :
  fold_left (λ acc x, a ← acc; v ← not_none x; Ok (a + v)) xs (Raise e) = Raise e.
Proof. induction xs as [| x xs IH]; [done |]. exact IH. Qed.

Lemma decimal_sum_from (xs : list (option Z)) (a : Z) :
  fold_left (λ acc x, a ← acc; v ← not_none x; Ok (a + v)) xs (Ok a) =
  s ← decimal_sum xs; Ok (a + s).
Proof.
  unfold decimal_sum. revert a. induction xs as [| [v |] xs IH]; intros a.
  - cbn. by rewrite Z.add_0_r.
  - cbn [fold_left mbind result_bind not_none].
    rewrite (IH (a + v)), (IH (0 + v)).
    destruct (fold_left _ xs (Ok 0)) as [s |]; [| done].
    cbn [mbind result_bind]. f_equal. lia.
  - cbn [fold_left mbind result_bind not_none].
    by rewrite !decimal_sum_raised.
Qed.

Lemma decimal_sum_cons (v : Z) (xs : list (option Z)) :
  decimal_sum (Some v :: xs) = s ← decimal_sum xs; Ok (v + s).
Proof.
  unfold decimal_sum at 1. cbn [fold_left mbind result_bind not_none].
  by rewrite decimal_sum_from.
Qed.

(** A sum over a column that is never null is a number. *)
Lemma decimal_sum_total (vs : list Z) : ∃ s, decimal_sum (Some <$> vs) = Ok s.
Proof.
  induction vs as [| v vs [s IH]]; [by exists 0 |].
  rewrite fmap_cons, decimal_sum_cons, IH. cbn [mbind result_bind]. eauto.
Qed.

(** The loans of a customer are among the stored loans. *)
Lemma loans_of_stored (cust : string) db (P : Loan → Prop) :
  map_Forall (λ _ l, P l) (loans db) → Forall P (loans_of cust db).
Proof.
  intros Hdb. apply Forall_forall. intros l Hl. unfold loans_of in Hl.
  apply list_elem_of_filter in Hl as [_ Hl].
  apply list_elem_of_fmap in Hl as ([id l'] & -> & Hl).
  apply elem_of_map_to_list in Hl. exact (Hdb _ _ Hl).
Qed.

(** The totals of a list of loans with consistent ledgers. *)
Lemma overview_sums ls :
  Forall (λ l, well_formed l ∧ ledger_consistent l) ls →
  ∃ (data : list (Loan * Z)) (ta tr tp : Z),
    mapM (λ l, r ← emis_remaining l; Ok (l, r)) ls = Ok data ∧
    decimal_sum (total_amount <$> ls) = Ok ta ∧
    decimal_sum (remaining_balance <$> ls) = Ok tr ∧
    decimal_sum (Some <$> (amount_paid <$> ls)) = Ok tp ∧
    tp + tr <= ta <=
      tp + tr + Z.of_nat (length (filter (λ l, loan_status l = COMPLETED) ls)) ∧
    (length (filter (λ l, loan_status l = ACTIVE) ls) +
     length (filter (λ l, loan_status l = COMPLETED) ls) = length ls)%nat.
Proof.
  induction 1 as [| l ls [[_ Hrange] Hcons] _ IH].
  { exists [], 0, 0, 0. cbn. repeat split; lia. }
  destruct IH as (data & ta & tr & tp & Hdata & Hta & Htr & Htp & Hbound & Hcount).
  unfold installments_in_range in Hrange. unfold ledger_consistent in Hcons.
  destruct (total_emis l) as [te |] eqn:Hte; [| done].
  destruct (remaining_balance l) as [rb |] eqn:Hrb; [| done].
  destruct (total_amount l) as [tal |] eqn:Htal; [| done].
  exists ((l, Z.max 0 (te - emis_paid l)) :: data), (tal + ta), (rb + tr),
    (amount_paid l + tp).
  split.
  { assert (Hrem : emis_remaining l = Ok (Z.max 0 (te - emis_paid l)))
      by (unfold emis_remaining; by rewrite Hte).
    cbn [mapM]. rewrite Hrem. cbn [mbind result_bind]. by rewrite Hdata. }
  rewrite !fmap_cons, Htal, Hrb, !decimal_sum_cons, Hta, Htr, Htp.
  split; [done |]. split; [done |]. split; [done |].
  rewrite !filter_cons.
  destruct (loan_status l) eqn:Hst; repeat case_decide; try done;
    cbn [length]; [lia | lia | by destruct Hcons].
Qed.

(** Neither [lend_loan] nor [make_payment] changes the customers. *)
Lemma serve_keeps_customers (reqs : list Request) db :
  customers (serve reqs db) = customers db.
Proof.
  revert db. induction reqs as [| req reqs IH]; intros db; [done |].
  cbn [serve fold_left]. rewrite IH.
  destruct req as [uuid4 data | pk data]; cbn [handle].
  - by destruct (lend_loan_stores uuid4 data db) as [-> | (l & _ & ->)].
  - unfold make_payment.
    destruct (PaymentCreateSerializer_is_valid data db) as [v | e]; [| done].
    destruct (loans db !! data_loan_id v) as [l |]; [| done].
    unfold Payment_save. cbn [Payment_init payment_id].
    destruct pk as [pk |].
    + by destruct (refresh_from_db _ _).
    + destruct (Payment_save_new _ db) as [[p' db1] | e] eqn:Hsave; [| done].
      cbn [mbind result_bind].
      apply Payment_save_new_stores in Hsave as ->.
      by destruct (refresh_from_db _ _).
Qed.

Variables (cs : gset string) (reqs : list Request).

(** For an existing customer [account_overview] always answers 200 (none of
    its sums meets a null): every loan of the customer is counted as active
    or as completed, and the total amount of the loans is the amount paid
    plus the remaining balance, up to one cent per completed loan. *)
Theorem account_overview_totals (cust : string) :
  cust ∈ cs →
  ∃ body,
    account_overview cust (serve reqs (initial_db cs)) = HTTP_200_OK body ∧
    (active_loans body + completed_loans body = total_loans body)%nat ∧
    total_amount_paid body + total_remaining_balance body <=
      total_amount_all_loans body <=
      total_amount_paid body + total_remaining_balance body +
      Z.of_nat (completed_loans body).
Proof.
  intros Hcust. unfold account_overview.
  rewrite serve_keeps_customers. cbn [initial_db customers].
  rewrite bool_decide_eq_true_2 by done.
  destruct (served_loans_sound cs reqs) as (Hwf & Hcons & _).
  assert (Hls : Forall (λ l, well_formed l ∧ ledger_consistent l)
                  (loans_of cust (serve reqs (initial_db cs)))).
  { apply loans_of_stored. intros id l Hl. split; [by eapply Hwf | by eapply Hcons]. }
  destruct (overview_sums _ Hls)
    as (data & ta & tr & tp & -> & -> & -> & -> & Hbound & Hcount).
  destruct (decimal_sum_total
              (principal_amount <$> loans_of cust (serve reqs (initial_db cs))))
    as [tpr ->].
  cbn [mbind result_bind]. eexists. split; [reflexivity |].
  cbn [active_loans completed_loans total_loans total_amount_paid
       total_remaining_balance total_amount_all_loans]. done.
Qed.

End AccountOverview.

(** Two loans, each with one payment recorded: 2 active, none completed, and
    0.00 + 100.12 = 100.12. *)
Lemma account_overview_totals_witness :
  ∃ body,
    account_overview "C001"
      (serve [LendLoan 1%N (mkLoanData "C001" 10000 1 0);
              LendLoan 2%N (mkLoanData "C001" 12 1 0);
              MakePayment (Some 11%N) (mkPaymentData 2%N LUMP_SUM 11);
              MakePayment (Some 12%N) (mkPaymentData 1%N EMI 833)]
         (initial_db {["C001"%string]})) = HTTP_200_OK body ∧
    (active_loans body + completed_loans body = total_loans body)%nat ∧
    total_amount_paid body + total_remaining_balance body <=
      total_amount_all_loans body <=
      total_amount_paid body + total_remaining_balance body +
      Z.of_nat (completed_loans body).
Proof.
  apply (account_overview_totals {["C001"%string]}
           [LendLoan 1%N (mkLoanData "C001" 10000 1 0);
            LendLoan 2%N (mkLoanData "C001" 12 1 0);
            MakePayment (Some 11%N) (mkPaymentData 2%N LUMP_SUM 11);
            MakePayment (Some 12%N) (mkPaymentData 1%N EMI 833)] "C001").
  vm_compute. reflexivity.
Defined.
